(** * PLNU MBA Performance Dashboard: a shallow embedding of [app.py]

    The program is a start-up script (archive extraction, CSV loading,
    merging, cleaning) followed by a Flask application whose single
    interesting view filters the merged table and plots two metrics.

    The script is embedded step by step, in the order of the source.  What
    the script delegates to its libraries (pandas' CSV reader and date
    parser, plotly's HTML writer, the Jinja template that is not part of the
    source file) is taken as a parameter of the development, collected in
    the class [World]; everything the script itself decides is a definition
    below. *)

From Stdlib Require Import ZArith Lia Ascii String.
From stdpp Require Import base option list strings gmap.

Local Open Scope string_scope.
Local Open Scope list_scope.

(** ** Text: the three string methods applied to the column labels

    A Python [str] is a sequence of code points.  A label is modelled by a
    [string] holding one character per code point, for the code points
    below 256 (Latin-1); labels with larger code points are outside the
    model. *)

Module Text.

(** [str.isspace] on one code point below 256: the characters that
    [str.strip()] removes. *)
Definition isspace (c : ascii) : bool :=
  let n := N_of_ascii c in
  ((9 <=? n) && (n <=? 13) || (28 <=? n) && (n <=? 32)
   || (n =? 133) || (n =? 160))%N.

(** [str.lower] on one code point below 256. *)
Definition lower_char (c : ascii) : ascii :=
  let n := N_of_ascii c in
  if ((65 <=? n) && (n <=? 90)
      || (192 <=? n) && (n <=? 222) && negb (n =? 215))%N
  then ascii_of_N (n + 32) else c.

Fixpoint lstrip (s : string) : string :=
  match s with
  | "" => ""
  | String c s' => if isspace c then lstrip s' else s
  end.

Fixpoint rstrip (s : string) : string :=
  match s with
  | "" => ""
  | String c s' =>
      match rstrip s' with
      | "" => if isspace c then "" else String c ""
      | r => String c r
      end
  end.

(** [s.strip()] *)
Definition strip (s : string) : string := rstrip (lstrip s).

Fixpoint map_chars (f : ascii -> ascii) (s : string) : string :=
  match s with
  | "" => ""
  | String c s' => String (f c) (map_chars f s')
  end.

(** [s.lower()] *)
Definition lower (s : string) : string := map_chars lower_char s.

(** [re.sub(old, new, s)] for a pattern and a replacement of one literal
    character each, which is how line 69 calls it. *)
Definition replace (old new : ascii) (s : string) : string :=
  map_chars (fun c => if Ascii.eqb c old then new else c) s.

(** [s.endswith(suffix)] *)
Definition endswith (s suffix : string) : bool :=
  let n := String.length s in
  let k := String.length suffix in
  (k <=? n)%nat && String.eqb (substring (n - k) k s) suffix.

(** [s.rfind("/") + 1]: the position just after the last slash. *)
Fixpoint after_last_slash (s : string) : nat :=
  match s with
  | "" => 0
  | String c s' =>
      match after_last_slash s' with
      | 0 => if Ascii.eqb c "/" then 1 else 0
      | S i => S (S i)
      end
  end.

(** The three methods of line 69 on one label, and what they do to one
    character once the label is stripped. *)
Definition normalize_label (s : string) : string :=
  replace " " "_" (lower (strip s)).

Definition fold_char (c : ascii) : ascii :=
  let c := lower_char c in if Ascii.eqb c " " then "_"%char else c.

(** A string that does not start, respectively end, with white space. *)
Definition head_ok (s : string) : bool :=
  match s with
  | "" => true
  | String c _ => negb (isspace c)
  end.

Fixpoint last_ok (s : string) : bool :=
  match s with
  | "" => true
  | String c s' =>
      match s' with
      | "" => negb (isspace c)
      | _ => last_ok s'
      end
  end.

End Text.

(** Line 69:
    [df.columns.str.strip().str.lower().str.replace(" ", "_", regex=True)],
    three vectorised string methods applied in sequence to the labels. *)
Definition str_strip (labels : list string) : list string :=
  map Text.strip labels.

Definition str_lower (labels : list string) : list string :=
  map Text.lower labels.

Definition str_replace (old new : ascii) (labels : list string) : list string :=
  map (Text.replace old new) labels.

Definition normalize_columns (labels : list string) : list string :=
  str_replace " " "_" (str_lower (str_strip labels)).

(** ** Exceptions and results

    A Python call either returns a value or raises.  The exceptions are the
    ones the script and its libraries raise on the paths modelled here. *)

Inductive exn : Type :=
| KeyError (key : string)       (* [df[key]] with no such column *)
| IndexError                    (* [array[0]] on an empty array *)
| ValueError                    (* pandas: bad argument *)
| TypeError                     (* comparison of incomparable values *)
| AttributeError                (* missing method on the object at hand *)
| InvalidIndexError             (* pandas: reindexing on duplicate labels *)
| SystemExit (code : Z)         (* [exit(code)] *)
| LibraryError (msg : string).  (* raised inside a library call *)

Inductive result (A : Type) : Type :=
| Ok (a : A)
| Raise (e : exn).

Arguments Ok {A} a.
Arguments Raise {A} e.

#[global] Instance result_ret : MRet result := @Ok.
#[global] Instance result_bind : MBind result :=
  fun A B f r => match r with Ok a => f a | Raise e => Raise e end.
#[global] Instance result_fmap : FMap result :=
  fun A B f r => match r with Ok a => Ok (f a) | Raise e => Raise e end.

(** ** Tables *)

(** A value of a datetime column: the missing marker or an instant, in
    nanoseconds since the epoch, of a time-zone-aware or naive dtype. *)
Inductive datetime : Type :=
| NaT
| Timestamp (aware : bool) (ns : Z).

Section Model.

(** The payload of a numeric cell (int64, float64 or bool column); only
    its [==] is used. *)
Context {number : Type}.

Inductive cell : Type :=
| NaN                    (* the missing marker of a non-datetime column *)
| Num (x : number)
| Str (s : string)
| Date (d : datetime).

(** A row carries its index label and one cell per column. *)
Record Row : Type := { label : nat; cells : list cell }.

(** A DataFrame: column labels (duplicates are possible) and rows. *)
Record DataFrame : Type := { columns : list string; rows : list Row }.

(** What [df[key]] evaluates to: a Series when one column carries the
    label, a DataFrame of all of them when several do. *)
Inductive selection : Type :=
| Series (values : list cell)
| Frame (cols : list (list cell)).

(** *** The figure handed to plotly *)

Record Line : Type := { color : string; shape : string; width : Z }.

Record Scatter : Type := {
  x : selection;
  y : selection;
  mode : string;
  name : string;
  line : Line;
  fill : string;
  fillcolor : string;
  yaxis : option string
}.

(** An f-string with one substitution at its end, kept unformatted. *)
Record fstring : Type := { prefix : string; arg : cell }.

Record Axis : Type := {
  axis_title : string;
  tickformat : option string;
  gridcolor : string;
  axis_color : option string;
  overlaying : option string;
  side : option string
}.

Record Layout : Type := {
  title : fstring;
  xaxis : Axis;
  yaxis1 : Axis;
  yaxis2 : Axis;
  paper_bgcolor : string;
  plot_bgcolor : string;
  template : string;
  showlegend : bool
}.

Record Figure : Type := { data : list Scatter; layout : option Layout }.

(** The keyword arguments of [render_template] at line 96. *)
Record TemplateContext : Type := {
  plot_html : string;
  athletes : list cell;
  variables : list string
}.

(** *** What the libraries decide

    [read_csv path] is the outcome of
    [pd.read_csv(path, encoding="utf-8-sig")];
    [to_datetime_coerce col] the outcome of
    [pd.to_datetime(col, errors="coerce")] on a column: the time-zone
    awareness of the resulting dtype and one optional instant per element
    ([None] is NaT);
    [parse_datetime s] the outcome of [pd.to_datetime(s)] on a string;
    [to_html fig] is [pio.to_html(fig, full_html=False)];
    [render_template] stands for Jinja on the templates folder, which is
    not part of the source file;
    [EXTRACT_FOLDER] is [os.path.abspath("extracted_files")]. *)
Class World : Type := {
  number_eqb : number -> number -> bool;
  read_csv : string -> result DataFrame;
  to_datetime_coerce : list cell -> result (bool * list (option Z));
  parse_datetime : string -> result datetime;
  to_html : Figure -> string;
  render_template : string -> TemplateContext -> result string;
  EXTRACT_FOLDER : string
}.

Context {W : World}.

(** *** pandas operations used by the script *)

Definition nrows (df : DataFrame) : nat := length (rows df).

(** [df.empty]: true when either axis has length 0. *)
Definition empty (df : DataFrame) : bool :=
  (nrows df =? 0)%nat || (length (columns df) =? 0)%nat.

(** The positions at which [key] occurs among the labels. *)
Fixpoint positions_from (i : nat) (key : string) (labels : list string)
  : list nat :=
  match labels with
  | [] => []
  | l :: ls =>
      if String.eqb l key then i :: positions_from (S i) key ls
      else positions_from (S i) key ls
  end.

Definition positions (key : string) (labels : list string) : list nat :=
  positions_from 0 key labels.

Definition cell_at (j : nat) (r : Row) : cell := nth j (cells r) NaN.

Definition column_at (j : nat) (df : DataFrame) : list cell :=
  map (cell_at j) (rows df).

(** The cell of a row under a label: the one of the first column that
    carries the label, the missing marker when none does. *)
Definition field_at (labels : list string) (key : string) (r : Row) : cell :=
  match positions key labels with
  | j :: _ => cell_at j r
  | [] => NaN
  end.

(** [df[key]] *)
Definition getitem (df : DataFrame) (key : string) : result selection :=
  match positions key (columns df) with
  | [] => Raise (KeyError key)
  | [j] => Ok (Series (column_at j df))
  | js => Ok (Frame (map (fun j => column_at j df) js))
  end.

(** [pd.isna] on one cell. *)
Definition isna (c : cell) : bool :=
  match c with
  | NaN | Date NaT => true
  | _ => false
  end.

(** Elementwise [==]: a missing value equals nothing, values of
    different kinds are different. *)
Definition cell_eq (a b : cell) : bool :=
  match a, b with
  | Num x, Num y => number_eqb x y
  | Str s, Str t => String.eqb s t
  | Date (Timestamp a1 n1), Date (Timestamp a2 n2) =>
      Bool.eqb a1 a2 && (n1 =? n2)%Z
  | _, _ => false
  end.

(** Identity as [unique] sees it: as [==], but a missing marker is the
    same as itself. *)
Definition cell_same (a b : cell) : bool :=
  match a, b with
  | NaN, NaN | Date NaT, Date NaT => true
  | _, _ => cell_eq a b
  end.

(** [Series.unique()]: the distinct values in order of first appearance. *)
Fixpoint unique_from (seen : list cell) (l : list cell) : list cell :=
  match l with
  | [] => []
  | c :: l' =>
      if existsb (cell_same c) seen then unique_from seen l'
      else c :: unique_from (c :: seen) l'
  end.

Definition unique (l : list cell) : list cell := unique_from [] l.

Definition labels_eqb (a b : list string) : bool :=
  bool_decide (a = b).

Definition has_duplicates (labels : list string) : bool :=
  negb (bool_decide (NoDup labels)).

(** [ignore_index=True]: the rows are relabelled 0, 1, 2, ... *)
Fixpoint reset_index_from (i : nat) (rs : list Row) : list Row :=
  match rs with
  | [] => []
  | r :: rs' => {| label := i; cells := cells r |} :: reset_index_from (S i) rs'
  end.

(** The union of the labels of the frames, in order of first appearance. *)
Fixpoint append_new (acc labels : list string) : list string :=
  match labels with
  | [] => acc
  | l :: ls =>
      if existsb (String.eqb l) acc then append_new acc ls
      else append_new (acc ++ [l]) ls
  end.

Definition union_columns (frames : list DataFrame) : list string :=
  fold_left (fun acc f => append_new acc (columns f)) frames [].

(** One row of [f] laid out on the labels [target]; a label that [f] does
    not have is filled with the missing marker. *)
Definition reindex (target : list string) (f : DataFrame) (r : Row) : Row :=
  {| label := label r;
     cells := map (fun l => field_at (columns f) l r) target |}.

(** [pd.concat(frames, ignore_index=True)]: frames with the same labels
    are stacked as they are; otherwise the columns are the union of the
    labels, which pandas refuses when a frame repeats a label.  (The cast
    of a numeric column to the common dtype of its pieces, int64 to
    float64 when a frame lacks the column, is not modelled: numeric cells
    are carried as they are.) *)
Definition concat (frames : list DataFrame) : result DataFrame :=
  match frames with
  | [] => Raise ValueError
  | f :: fs =>
      if forallb (fun g => labels_eqb (columns g) (columns f)) fs then
        Ok {| columns := columns f;
              rows := reset_index_from 0 (flat_map rows frames) |}
      else if existsb (fun g => has_duplicates (columns g)) frames then
        Raise InvalidIndexError
      else
        let cols := union_columns frames in
        Ok {| columns := cols;
              rows := reset_index_from 0
                        (flat_map (fun g => map (reindex cols g) (rows g))
                                  frames) |}
  end.

(** [df.columns = labels] (the new labels are as many as the old). *)
Definition set_columns (d : DataFrame) (labels : list string) : DataFrame :=
  {| columns := labels; rows := rows d |}.

(** [df[key] = series] for a label the frame has: the cells of the
    column(s) of that label are replaced, row by row; a row the series
    has no value for gets the missing marker. *)
Definition set_cells (js : list nat) (v : cell) (r : Row) : Row :=
  {| label := label r;
     cells := fold_left (fun cs j => <[j := v]> cs) js (cells r) |}.

Fixpoint assign_rows (js : list nat) (vals : list cell) (rs : list Row)
  : list Row :=
  match rs with
  | [] => []
  | r :: rs' =>
      match vals with
      | v :: vals' => set_cells js v r :: assign_rows js vals' rs'
      | [] => set_cells js (Date NaT) r :: assign_rows js [] rs'
      end
  end.

Definition setitem (d : DataFrame) (key : string) (vals : list cell)
  : DataFrame :=
  {| columns := columns d;
     rows := assign_rows (positions key (columns d)) vals (rows d) |}.

Definition stamp (aware : bool) (v : option Z) : cell :=
  match v with
  | Some ns => Date (Timestamp aware ns)
  | None => Date NaT
  end.

(** [df.dropna(subset=keys)]: the rows with no missing value in the
    columns named by [keys]. *)
Fixpoint subset_positions (labels keys : list string) : result (list nat) :=
  match keys with
  | [] => Ok []
  | k :: ks =>
      match positions k labels with
      | [] => Raise (KeyError k)
      | js => rest ← subset_positions labels ks; Ok (js ++ rest)
      end
  end.

Definition dropna (subset : list string) (d : DataFrame) : result DataFrame :=
  js ← subset_positions (columns d) subset;
  Ok {| columns := columns d;
        rows := List.filter
                  (fun r => forallb (fun j => negb (isna (cell_at j r))) js)
                  (rows d) |}.

(** ** The start-up script, lines 39 to 78 *)

(** Lines 48 to 58: the loop over [csv_files], appending every table that
    was read and is not empty to [all_data_frames]. *)
Fixpoint load_loop (files : list string) (all_data_frames : list DataFrame)
  : list DataFrame :=
  match files with
  | [] => all_data_frames
  | file :: rest =>
      match read_csv file with
      | Ok d =>
          if empty d then load_loop rest all_data_frames
          else load_loop rest (all_data_frames ++ [d])
      | Raise _ => load_loop rest all_data_frames
      end
  end.

(** Lines 61 to 66. *)
Definition merge (all_data_frames : list DataFrame) : result DataFrame :=
  match all_data_frames with
  | [] => Raise (SystemExit 1)
  | _ => concat all_data_frames
  end.

(** Line 70: [df["date"] = pd.to_datetime(df["date"], errors="coerce")].
    With the label repeated, [df["date"]] is a DataFrame, which
    [to_datetime] refuses unless its columns are year, month and day. *)
Definition parse_dates (d : DataFrame) : result DataFrame :=
  sel ← getitem d "date";
  match sel with
  | Frame _ => Raise ValueError
  | Series col =>
      '(aware, vals) ← to_datetime_coerce col;
      Ok (setitem d "date" (map (stamp aware) vals))
  end.

(** Lines 39 to 70: the merged table with its labels normalised and its
    dates parsed. *)
Definition parsed_table (csv_files : list string) : result DataFrame :=
  match csv_files with
  | [] => Raise (SystemExit 1)
  | _ =>
      d ← merge (load_loop csv_files []);
      parse_dates (set_columns d (normalize_columns (columns d)))
  end.

(** Lines 39 to 71: the table every request reads. *)
Definition unified_table (csv_files : list string) : result DataFrame :=
  d ← parsed_table csv_files;
  dropna ["date"] d.

(** Line 76: [df["name"].unique()[0]]; a DataFrame has no [unique]. *)
Definition first_unique (d : DataFrame) (key : string) : result cell :=
  sel ← getitem d key;
  match sel with
  | Frame _ => Raise AttributeError
  | Series col =>
      match unique col with
      | [] => Raise IndexError
      | a :: _ => Ok a
      end
  end.

(** The module globals the views read. *)
Record Globals : Type := { df : DataFrame; DEFAULT_ATHLETE : cell }.

Definition DEFAULT_VAR1 : string := "time_to_takeoff".
Definition DEFAULT_VAR2 : string := "mrsi".

Definition startup (csv_files : list string) : result Globals :=
  d ← unified_table csv_files;
  a ← first_unique d "name";
  Ok {| df := d; DEFAULT_ATHLETE := a |}.

(** ** The views *)

(** A date argument of [create_plot]: the string of a form field, or the
    Timestamp that [index] computes as default. *)
Inductive date_arg : Type :=
| DateStr (s : string)
| DateVal (d : datetime).

(** [pd.to_datetime(v)] on a scalar: a Timestamp is returned as it is. *)
Definition to_datetime (v : date_arg) : result datetime :=
  match v with
  | DateStr s => parse_datetime s
  | DateVal d => Ok d
  end.

(** Ordering of a cell of the date column with a scalar: NaT compares
    false with everything, instants of different awareness do not
    compare, and neither does a cell that is not a datetime. *)
Definition cell_ge (c : cell) (d : datetime) : result bool :=
  match c, d with
  | Date (Timestamp a t), Timestamp b t' =>
      if Bool.eqb a b then Ok (t' <=? t)%Z else Raise TypeError
  | Date _, _ => Ok false
  | _, _ => Raise TypeError
  end.

Definition cell_le (c : cell) (d : datetime) : result bool :=
  match c, d with
  | Date (Timestamp a t), Timestamp b t' =>
      if Bool.eqb a b then Ok (t <=? t')%Z else Raise TypeError
  | Date _, _ => Ok false
  | _, _ => Raise TypeError
  end.

(** [series >= d] and [series <= d], elementwise. *)
Definition series_ge (col : list cell) (d : datetime) : result (list bool) :=
  mapM (fun c => cell_ge c d) col.

Definition series_le (col : list cell) (d : datetime) : result (list bool) :=
  mapM (fun c => cell_le c d) col.

(** [series == v], elementwise; [mask1 & mask2]. *)
Definition series_eq (col : list cell) (v : cell) : list bool :=
  map (fun c => cell_eq c v) col.

Definition mask_and (m1 m2 : list bool) : list bool := zip_with andb m1 m2.

(** [df[mask]]: the rows at which the mask is true, columns unchanged. *)
Fixpoint select_rows (rs : list Row) (mask : list bool) : list Row :=
  match rs, mask with
  | r :: rs', b :: mask' =>
      if b then r :: select_rows rs' mask' else select_rows rs' mask'
  | _, _ => []
  end.

Definition getitem_mask (d : DataFrame) (mask : list bool) : DataFrame :=
  {| columns := columns d; rows := select_rows (rows d) mask |}.

(** [df[key]] where the script goes on with a Series.  With a repeated
    label the start-up has already failed (lines 70 and 76), so no
    request meets the [Frame] case; it is closed with an error. *)
Definition series (d : DataFrame) (key : string) : result (list cell) :=
  sel ← getitem d key;
  match sel with
  | Series col => Ok col
  | Frame _ => Raise TypeError
  end.

(** [Series.min()] and [Series.max()] of a datetime column; missing
    values are skipped. *)
Definition min_datetime (a b : datetime) : datetime :=
  match a, b with
  | NaT, d | d, NaT => d
  | Timestamp aw t, Timestamp _ t' => Timestamp aw (Z.min t t')
  end.

Definition max_datetime (a b : datetime) : datetime :=
  match a, b with
  | NaT, d | d, NaT => d
  | Timestamp aw t, Timestamp _ t' => Timestamp aw (Z.max t t')
  end.

Definition series_min (col : list cell) : datetime :=
  fold_right (fun c acc => match c with
                           | Date d => min_datetime d acc
                           | _ => acc
                           end) NaT col.

Definition series_max (col : list cell) : datetime :=
  fold_right (fun c acc => match c with
                           | Date d => max_datetime d acc
                           | _ => acc
                           end) NaT col.

Section Views.

(** The globals as the start-up script has left them. *)
Variable g : Globals.

(** Lines 104 to 108: the filtered view.  The three comparisons are
    evaluated left to right, each on the whole column. *)
Definition filter_rows (athlete : cell) (start_date end_date : date_arg)
  : result DataFrame :=
  names ← series (df g) "name";
  let by_name := series_eq names athlete in
  dates ← series (df g) "date";
  lo ← to_datetime start_date;
  from_start ← series_ge dates lo;
  dates ← series (df g) "date";
  hi ← to_datetime end_date;
  to_end ← series_le dates hi;
  Ok (getitem_mask (df g) (mask_and (mask_and by_name from_start) to_end)).

Definition NO_DATA : string :=
  "<h3>No data available for the selected athlete and date range.</h3>".

(** Lines 100 to 151. *)
Definition create_plot (athlete : cell) (var1 var2 : string)
           (start_date end_date : date_arg) : result string :=
  filtered_df ← filter_rows athlete start_date end_date;
  if empty filtered_df then Ok NO_DATA
  else
    x1 ← getitem filtered_df "date";
    y1 ← getitem filtered_df var1;
    let trace1 :=
      {| x := x1; y := y1; mode := "lines+markers"; name := var1;
         line := {| color := "red"; shape := "spline"; width := 3 |};
         fill := "tonexty"; fillcolor := "rgba(255, 0, 0, 0.3)";
         yaxis := None |} in
    x2 ← getitem filtered_df "date";
    y2 ← getitem filtered_df var2;
    let trace2 :=
      {| x := x2; y := y2; mode := "lines+markers"; name := var2;
         line := {| color := "yellow"; shape := "spline"; width := 3 |};
         fill := "tonexty"; fillcolor := "rgba(255, 255, 0, 0.3)";
         yaxis := Some "y2" |} in
    let fig :=
      {| data := [trace1; trace2];
         layout := Some
           {| title := {| prefix := "Performance Over Time - ";
                          arg := athlete |};
              xaxis := {| axis_title := "Date"; tickformat := Some "%m-%d";
                          gridcolor := "gray"; axis_color := Some "white";
                          overlaying := None; side := None |};
              yaxis1 := {| axis_title := var1; tickformat := None;
                           gridcolor := "gray"; axis_color := None;
                           overlaying := None; side := None |};
              yaxis2 := {| axis_title := var2; tickformat := None;
                           gridcolor := "gray"; axis_color := None;
                           overlaying := Some "y"; side := Some "right" |};
              paper_bgcolor := "black"; plot_bgcolor := "black";
              template := "plotly_dark"; showlegend := true |} |} in
    Ok (to_html fig).

(** [request.form]: the fields of the request body, in order;
    [form.get(key)] is the first value of the key. *)
Definition form_data : Type := list (string * string).

Fixpoint form_get (form : form_data) (key : string) : option string :=
  match form with
  | [] => None
  | (k, v) :: form' => if String.eqb k key then Some v else form_get form' key
  end.

(** [request.form.get(key, default)], where the value of a field is
    injected into the type of the default. *)
Definition get_or {A : Type} (form : form_data) (key : string)
           (inj : string -> A) (default : A) : A :=
  match form_get form key with
  | Some v => inj v
  | None => default
  end.

(** The five parameters of a request. *)
Record Params : Type := {
  p_athlete : cell;
  p_var1 : string;
  p_var2 : string;
  p_start_date : date_arg;
  p_end_date : date_arg
}.

(** Lines 88 to 92.  The defaults are arguments of [get], so they are
    evaluated whether or not the field is present. *)
Definition read_params (form : form_data) : result Params :=
  let athlete := get_or form "athlete" Str (DEFAULT_ATHLETE g) in
  let var1 := get_or form "var1" id DEFAULT_VAR1 in
  let var2 := get_or form "var2" id DEFAULT_VAR2 in
  dates ← series (df g) "date";
  let start_date := get_or form "start_date" DateStr (DateVal (series_min dates)) in
  dates ← series (df g) "date";
  let end_date := get_or form "end_date" DateStr (DateVal (series_max dates)) in
  Ok {| p_athlete := athlete; p_var1 := var1; p_var2 := var2;
        p_start_date := start_date; p_end_date := end_date |}.

(** Lines 85 to 96: the view [index] of the factory [create_app]. *)
Definition index (form : form_data) : result string :=
  p ← read_params form;
  html ← create_plot (p_athlete p) (p_var1 p) (p_var2 p)
                     (p_start_date p) (p_end_date p);
  names ← series (df g) "name";
  render_template "index.html"
    {| plot_html := html; athletes := unique names;
       variables := columns (df g) |}.

(** Lines 157 to 159: the view [home]. *)
Definition home : result string := Ok "Flask is working!".

End Views.

(** ** Reading a table row by row

    The script works on whole columns.  The properties below are stated
    on rows: the cell of a row under a label of its table. *)

Definition field (d : DataFrame) (key : string) (r : Row) : cell :=
  field_at (columns d) key r.

(** The date of a row lies in the closed range from [lo] to [hi]: the
    three are instants of one awareness, in order. *)
Definition in_range (lo hi : datetime) (c : cell) : Prop :=
  exists a t tlo thi,
    c = Date (Timestamp a t) /\ lo = Timestamp a tlo /\ hi = Timestamp a thi
    /\ (tlo <= t <= thi)%Z.

(** A bound is in the representation of the date column of [d]: it is
    NaT, or every date of the column is an instant of its awareness. *)
Definition same_representation (d : DataFrame) (b : datetime) : Prop :=
  match b with
  | NaT => True
  | Timestamp a _ =>
      forall r, r ∈ rows d -> exists t, field d "date" r = Date (Timestamp a t)
  end.

(** A bound that compares with the instants of awareness [aware], and the
    outcome of a comparison that does not raise. *)
Definition fits (aware : bool) (b : datetime) : Prop :=
  b = NaT \/ exists t, b = Timestamp aware t.

Definition geb (c : cell) (b : datetime) : bool :=
  match cell_ge c b with Ok v => v | Raise _ => false end.

Definition leb (c : cell) (b : datetime) : bool :=
  match cell_le c b with Ok v => v | Raise _ => false end.

(** Equality by exact match, said of the values: two strings are the same
    string, two numbers are equal numbers, two instants are the same
    instant of the same awareness; a missing value equals nothing, and
    values of different kinds are different. *)
Definition exact_match (c v : cell) : Prop :=
  match c, v with
  | Str s, Str t => s = t
  | Num x, Num y => number_eqb x y = true
  | Date (Timestamp a1 n1), Date (Timestamp a2 n2) => a1 = a2 /\ n1 = n2
  | _, _ => False
  end.

(** The text of a cell that holds a string. *)
Definition text_of (c : cell) : option string :=
  match c with
  | Str s => Some s
  | _ => None
  end.

(** The row matches the query. *)
Definition matches (d : DataFrame) (athlete : cell) (lo hi : datetime)
           (r : Row) : Prop :=
  cell_eq (field d "name" r) athlete = true
  /\ in_range lo hi (field d "date" r).



(** The source tables that were read and are not empty count for their
    rows; the others for nothing. *)
Definition source_rows (file : string) : nat :=
  match read_csv file with
  | Ok t => if empty t then 0 else nrows t
  | Raise _ => 0
  end.

(** The rows of a table whose date is missing. *)
Definition undated_rows (d : DataFrame) : list Row :=
  List.filter (fun r => isna (field d "date" r)) (rows d).

(** What the start-up script establishes about its globals. *)
Record well_formed (g : Globals) (jn jd : nat) (aware : bool) : Prop := {
  wf_name : positions "name" (columns (df g)) = [jn];
  wf_date : positions "date" (columns (df g)) = [jd];
  wf_dated : Forall (fun r => exists t, cell_at jd r = Date (Timestamp aware t))
                    (rows (df g));
  wf_default : exists r rs,
      rows (df g) = r :: rs /\ DEFAULT_ATHLETE g = cell_at jn r;
  wf_labels : NoDup (map label (rows (df g)))
}.

(** ** The Flask applications *)

Inductive http_method : Type := GET | POST | HEAD | OPTIONS | PUT | DELETE.

#[global] Instance http_method_eq_dec : EqDecision http_method.
Proof. solve_decision. Defined.

Record Request : Type := {
  method : http_method;
  path : string;
  form : form_data
}.

Inductive Response : Type :=
| Page (body : string)               (* 200, the value the view returned *)
| Headers                            (* 200 without a body: HEAD, OPTIONS *)
| NotFound                           (* 404 *)
| MethodNotAllowed                   (* 405 *)
| InternalServerError (e : exn).     (* 500, the view raised *)

Record Rule : Type := {
  rule : string;
  methods : list http_method;
  view_func : Request -> result string
}.

(** A Flask object, as far as routing goes: its URL map.  (The rule that
    serves the static folder is left out.) *)
Definition Flask : Type := list Rule.

(** [@app.route(rule, methods=...)]; without [methods] a rule accepts GET.
    HEAD is added to a rule that accepts GET, and OPTIONS to every rule. *)
Definition route (app : Flask) (r : string) (ms : option (list http_method))
           (view : Request -> result string) : Flask :=
  let ms := default [GET] ms in
  let ms := if bool_decide (GET ∈ ms) then ms ++ [HEAD] else ms in
  app ++ [{| rule := r; methods := ms ++ [OPTIONS]; view_func := view |}].

(** The request dispatch of Flask for a request on the path of a rule.
    (Paths that are no rule string are outside the model: Flask redirects
    some of them and serves the static folder on others.) *)
Definition dispatch (app : Flask) (req : Request) : Response :=
  match List.filter (fun r => String.eqb (rule r) (path req)) app with
  | [] => NotFound
  | matching =>
      match List.find (fun r => bool_decide (method req ∈ methods r)) matching with
      | None => MethodNotAllowed
      | Some r =>
          match method req with
          | OPTIONS => Headers
          | m =>
              match view_func r req with
              | Ok body => if bool_decide (m = HEAD) then Headers else Page body
              | Raise e => InternalServerError e
              end
          end
      end
  end.

(** Lines 80 to 98: the factory.  Nothing in the file calls it. *)
Definition create_app (g : Globals) : Flask :=
  route [] "/" (Some [GET; POST]) (fun req => index g (form req)).

(** Lines 155 to 159: the module-level [app], bound last and therefore the
    one that line 166 runs. *)
Definition app : Flask :=
  route [] "/" None (fun _ => home).

(** The process: the start-up script runs to its end, then [app.run]. *)
Inductive process : Type :=
| Exited (e : exn)
| Serving (a : Flask).

Definition main (csv_files : list string) : process :=
  match startup csv_files with
  | Raise e => Exited e
  | Ok _ => Serving app
  end.

(** ** The archive extractor, lines 21 to 36 *)

Definition bytes : Type := list Byte.byte.

(** What reading a member of an archive comes to: its bytes, or an error
    when the member is opened, or an error when its data is read. *)
Inductive member : Type :=
| Content (b : bytes)
| OpenError (e : exn)
| ReadError (e : exn).

Record ZipInfo : Type := { filename : string; contents : member }.

(** [os.path.basename] and [os.path.join] of posixpath. *)
Definition basename (p : string) : string :=
  let i := Text.after_last_slash p in
  substring i (String.length p - i) p.

Definition path_join (a p : string) : string :=
  if String.prefix "/" p then p
  else if String.eqb a "" || Text.endswith a "/" then a +:+ p
  else a +:+ "/" +:+ p.

(** [zip_ref.open(name)] reads the member that the name denotes: the last
    one of that name in the archive. *)
Fixpoint zip_open (filelist : list ZipInfo) (name : string) : option member :=
  match filelist with
  | [] => None
  | i :: rest =>
      match zip_open rest name with
      | Some m => Some m
      | None => if String.eqb (filename i) name then Some (contents i) else None
      end
  end.

Definition extracted_path (file : string) : string :=
  path_join EXTRACT_FOLDER (basename file).

(** Lines 29 to 34, over the names still to visit; the files written so
    far stay written when a member raises. *)
Fixpoint extract_names (filelist : list ZipInfo) (names : list string)
         (fs : gmap string bytes) : gmap string bytes * option exn :=
  match names with
  | [] => (fs, None)
  | file :: names' =>
      if Text.endswith file ".csv" then
        match zip_open filelist file with
        | Some (Content b) =>
            extract_names filelist names' (<[extracted_path file := b]> fs)
        | Some (ReadError e) =>
            (* the target is already open for writing, hence truncated *)
            (<[extracted_path file := []]> fs, Some e)
        | Some (OpenError e) => (fs, Some e)
        | None => (fs, Some (KeyError file))
        end
      else extract_names filelist names' fs
  end.

(** Lines 27 to 36 for one archive; [Raise] is an archive that
    [zipfile.ZipFile] cannot open.  The error is printed and dropped. *)
Definition extract_zip (zip_file : result (list ZipInfo))
           (fs : gmap string bytes) : gmap string bytes :=
  match zip_file with
  | Raise _ => fs
  | Ok filelist => fst (extract_names filelist (map filename filelist) fs)
  end.

(** Lines 22 to 36. *)
Definition extract_all (zip_files : list (result (list ZipInfo)))
           (fs : gmap string bytes) : gmap string bytes :=
  fold_left (fun fs z => extract_zip z fs) zip_files fs.

(** The writes of the extractor, in the order it performs them: the log
    of [extract_names], of one archive, of all archives; and a log played
    on a directory. *)
Fixpoint writes_of_names (filelist : list ZipInfo) (names : list string)
  : list (string * bytes) :=
  match names with
  | [] => []
  | file :: names' =>
      if Text.endswith file ".csv" then
        match zip_open filelist file with
        | Some (Content b) =>
            (extracted_path file, b) :: writes_of_names filelist names'
        | Some (ReadError _) => [(extracted_path file, [])]
        | Some (OpenError _) | None => []
        end
      else writes_of_names filelist names'
  end.

Definition writes_of_zip (zip_file : result (list ZipInfo))
  : list (string * bytes) :=
  match zip_file with
  | Raise _ => []
  | Ok filelist => writes_of_names filelist (map filename filelist)
  end.

Definition replay (log : list (string * bytes)) (fs : gmap string bytes)
  : gmap string bytes :=
  fold_left (fun fs w => <[w.1 := w.2]> fs) log fs.

(** No character of the string is a slash. *)
Definition no_slash (s : string) : Prop :=
  Forall (fun c => c <> "/"%char) (list_ascii_of_string s).

End Model.

(** ** A small world to run the script in

    Dates are ISO calendar dates, read by a parser written out here; numbers
    are integers; the chart and the page are rendered to short strings that
    show their inputs. *)

Module Sample.

Definition digit (c : ascii) : option Z :=
  let n := Z.of_N (N_of_ascii c) in
  if (48 <=? n)%Z && (n <=? 57)%Z then Some (n - 48)%Z else None.

Fixpoint number_from (acc : Z) (s : string) : option Z :=
  match s with
  | "" => Some acc
  | String c s' =>
      match digit c with
      | Some d => number_from (10 * acc + d)%Z s'
      | None => None
      end
  end.

Definition digits (s : string) : option Z :=
  match s with
  | "" => None
  | _ => number_from 0 s
  end.

(** Days from 1970-01-01 to the civil date [y-m-d]. *)
Definition days_from_civil (y m d : Z) : Z :=
  let y := (if m <=? 2 then y - 1 else y)%Z in
  let era := (y / 400)%Z in
  let yoe := (y - era * 400)%Z in
  let mp := ((m + 9) mod 12)%Z in
  let doy := ((153 * mp + 2) / 5 + d - 1)%Z in
  let doe := (yoe * 365 + yoe / 4 - yoe / 100 + doy)%Z in
  (era * 146097 + doe - 719468)%Z.

Definition ns_per_day : Z := 86400 * 1000000000.

(** [YYYY-MM-DD] to nanoseconds since the epoch. *)
Definition iso_date (s : string) : option Z :=
  if (String.length s =? 10)%nat
     && String.eqb (substring 4 1 s) "-" && String.eqb (substring 7 1 s) "-"
  then
    y ← digits (substring 0 4 s);
    m ← digits (substring 5 2 s);
    d ← digits (substring 8 2 s);
    if (1 <=? m)%Z && (m <=? 12)%Z && (1 <=? d)%Z && (d <=? 31)%Z
    then Some (days_from_civil y m d * ns_per_day)%Z else None
  else None.

Definition coerce_cell (c : @cell Z) : option Z :=
  match c with
  | Str s => iso_date s
  | Date (Timestamp _ ns) => Some ns
  | _ => None
  end.

Definition row (i : nat) (cs : list (@cell Z)) : @Row Z :=
  {| label := i; cells := cs |}.

(** Two source tables with different spellings of the labels, an empty
    one, and a file that cannot be parsed. *)
Definition jumps_csv : @DataFrame Z :=
  {| columns := ["Date"; " Name"; "Time To Takeoff"; "mRSI "];
     rows := [row 0 [Str "2024-01-01"; Str "A"; Num 21%Z; Num 352%Z];
              row 1 [Str "2024-01-08"; Str "B"; Num 25%Z; Num 310%Z];
              row 2 [Str "not a date"; Str "A"; Num 22%Z; Num 340%Z];
              row 3 [Str "2024-01-15"; Str "A"; Num 20%Z; Num 361%Z]] |}.

Definition more_csv : @DataFrame Z :=
  {| columns := ["Date"; " Name"; "Time To Takeoff"; "mRSI "];
     rows := [row 0 [Str "2024-02-01"; Str "A"; Num 19%Z; Num 370%Z];
              row 1 [NaN; Str "B"; Num 24%Z; Num 322%Z]] |}.

Definition header_only_csv : @DataFrame Z :=
  {| columns := ["Date"; " Name"]; rows := [] |}.

Definition no_name_csv : @DataFrame Z :=
  {| columns := ["date"; "athlete"];
     rows := [row 0 [Str "2024-01-01"; Str "A"]] |}.

Definition undated_csv : @DataFrame Z :=
  {| columns := ["date"; "name"];
     rows := [row 0 [Str "yesterday"; Str "A"]] |}.

Definition sample_read_csv (file : string) : result (@DataFrame Z) :=
  if String.eqb file "jumps.csv" then Ok jumps_csv
  else if String.eqb file "more.csv" then Ok more_csv
  else if String.eqb file "header_only.csv" then Ok header_only_csv
  else if String.eqb file "no_name.csv" then Ok no_name_csv
  else if String.eqb file "undated.csv" then Ok undated_csv
  else Raise (LibraryError "EmptyDataError").

(** [HH:MM:SS] to nanoseconds after midnight. *)
Definition iso_time (s : string) : option Z :=
  if (String.length s =? 8)%nat
     && String.eqb (substring 2 1 s) ":" && String.eqb (substring 5 1 s) ":"
  then
    h ← digits (substring 0 2 s);
    m ← digits (substring 3 2 s);
    sec ← digits (substring 6 2 s);
    if (h <=? 23)%Z && (m <=? 59)%Z && (sec <=? 59)%Z
    then Some (((h * 60 + m) * 60 + sec) * 1000000000)%Z else None
  else None.

(** The strings the sample parser reads: the empty string (NaT), an ISO
    calendar date, and an ISO date and time of day separated by T, naive
    or, with a final Z, aware. *)
Definition sample_parse_datetime (s : string) : result datetime :=
  if String.eqb s "" then Ok NaT
  else match iso_date s with
       | Some ns => Ok (Timestamp false ns)
       | None =>
           match iso_date (substring 0 10 s), iso_time (substring 11 8 s) with
           | Some day, Some time =>
               if String.eqb (substring 10 1 s) "T" then
                 if (String.length s =? 19)%nat
                 then Ok (Timestamp false (day + time))
                 else if (String.length s =? 20)%nat
                         && String.eqb (substring 19 1 s) "Z"
                      then Ok (Timestamp true (day + time))
                      else Raise ValueError
               else Raise ValueError
           | _, _ => Raise ValueError
           end
       end.

Definition sample_to_html (fig : @Figure Z) : string :=
  "<div>" +:+ String.concat "," (map name (data fig)) +:+ "</div>".

Definition sample_render_template (file : string) (ctx : @TemplateContext Z)
  : result string :=
  if String.eqb file "index.html"
  then Ok ("<form>" +:+ String.concat "," (variables ctx) +:+ "</form>"
           +:+ plot_html ctx)
  else Raise (LibraryError "TemplateNotFound").

#[export] Instance world : @World Z := {|
  number_eqb := Z.eqb;
  read_csv := sample_read_csv;
  to_datetime_coerce := fun col => Ok (false, map coerce_cell col);
  parse_datetime := sample_parse_datetime;
  to_html := sample_to_html;
  render_template := sample_render_template;
  EXTRACT_FOLDER := "/srv/extracted_files"
|}.

Definition csv_files : list string :=
  ["jumps.csv"; "header_only.csv"; "broken.csv"; "more.csv"].

(** The globals after the start-up on [csv_files]. *)
Definition globals : @Globals Z :=
  {| df :=
       {| columns := ["date"; "name"; "time_to_takeoff"; "mrsi"];
          rows :=
            [row 0 [Date (Timestamp false 1704067200000000000); Str "A"; Num 21%Z; Num 352%Z];
             row 1 [Date (Timestamp false 1704672000000000000); Str "B"; Num 25%Z; Num 310%Z];
             row 3 [Date (Timestamp false 1705276800000000000); Str "A"; Num 20%Z; Num 361%Z];
             row 4 [Date (Timestamp false 1706745600000000000); Str "A"; Num 19%Z; Num 370%Z]] |};
     DEFAULT_ATHLETE := Str "A" |}.

(** The rows of subject "A" from 2024-01-01 to 2024-01-15. *)
Definition view_A : @DataFrame Z :=
  {| columns := ["date"; "name"; "time_to_takeoff"; "mrsi"];
     rows :=
       [row 0 [Date (Timestamp false 1704067200000000000); Str "A"; Num 21%Z; Num 352%Z];
        row 3 [Date (Timestamp false 1705276800000000000); Str "A"; Num 20%Z; Num 361%Z]] |}.

(** Archives: an old export, and a newer one that holds a file of the
    same base name in another folder. *)
Definition old_jumps : ZipInfo :=
  {| filename := "2023/jumps.csv"; contents := Content [Byte.x6f; Byte.x6c; Byte.x64] |}.

Definition notes : ZipInfo :=
  {| filename := "2024/notes.csv"; contents := Content [Byte.x6e] |}.

Definition readme : ZipInfo :=
  {| filename := "2024/README.txt"; contents := Content [Byte.x72] |}.

Definition new_jumps : ZipInfo :=
  {| filename := "2024/jumps.csv"; contents := Content [Byte.x6e; Byte.x65; Byte.x77] |}.

Definition sprints : ZipInfo :=
  {| filename := "sprints.csv"; contents := ReadError (LibraryError "BadZipFile") |}.

End Sample.

(** A second world, whose only source table starts with a row that has no
    subject. *)
Module Anonymous.

Definition anonymous_csv : @DataFrame Z :=
  {| columns := ["date"; "name"; "mrsi"];
     rows := [Sample.row 0 [Str "2024-03-01"; NaN; Num 300%Z];
              Sample.row 1 [Str "2024-03-02"; Str "A"; Num 310%Z]] |}.

Definition world : @World Z := {|
  number_eqb := Z.eqb;
  read_csv := fun _ => Ok anonymous_csv;
  to_datetime_coerce := fun col => Ok (false, map Sample.coerce_cell col);
  parse_datetime := Sample.sample_parse_datetime;
  to_html := Sample.sample_to_html;
  render_template := Sample.sample_render_template;
  EXTRACT_FOLDER := "/srv/extracted_files"
|}.

Definition globals : @Globals Z :=
  {| df :=
       {| columns := ["date"; "name"; "mrsi"];
          rows :=
            [Sample.row 0 [Date (Timestamp false 1709251200000000000); NaN; Num 300%Z];
             Sample.row 1 [Date (Timestamp false 1709337600000000000); Str "A"; Num 310%Z]] |};
     DEFAULT_ATHLETE := NaN |}.

End Anonymous.

(** * Properties *)

(** ** Column-label normalisation *)

Module TextFacts.
Import Text.

Ltac by_cases_on c :=
  destruct c as [[] [] [] [] [] [] [] []]; vm_compute; congruence.

Lemma fold_char_keeps_nonspace c :
  isspace c = false -> isspace (fold_char c) = false.
Proof. by_cases_on c. Qed.

Lemma fold_char_idempotent c : fold_char (fold_char c) = fold_char c.
Proof. by_cases_on c. Qed.

Lemma map_chars_map_chars f h s :
  map_chars f (map_chars h s) = map_chars (fun c => f (h c)) s.
Proof. induction s as [|c s IH]; simpl; [reflexivity | now rewrite IH]. Qed.

Lemma map_chars_ext f h s :
  (forall c, f c = h c) -> map_chars f s = map_chars h s.
Proof.
  intros E. induction s as [|c s IH]; simpl; [reflexivity|].
  now rewrite E, IH.
Qed.

Lemma replace_lower s :
  replace " " "_" (lower s) = map_chars fold_char s.
Proof. unfold replace, lower. now rewrite map_chars_map_chars. Qed.

Lemma head_ok_lstrip s : head_ok (lstrip s) = true.
Proof.
  induction s as [|c s IH]; simpl; [reflexivity|].
  destruct (isspace c) eqn:E; [exact IH | simpl; now rewrite E].
Qed.

Lemma last_ok_rstrip s : last_ok (rstrip s) = true.
Proof.
  induction s as [|c s IH]; simpl; [reflexivity|].
  destruct (rstrip s) as [|a r] eqn:E.
  - destruct (isspace c) eqn:Ec; simpl; [reflexivity | now rewrite Ec].
  - exact IH.
Qed.

Lemma head_ok_rstrip s : head_ok s = true -> head_ok (rstrip s) = true.
Proof.
  destruct s as [|c s]; simpl; [reflexivity|]. intros H.
  destruct (rstrip s); [|exact H].
  destruct (isspace c) eqn:E; [reflexivity | simpl; now rewrite E].
Qed.

Lemma lstrip_fixed s : head_ok s = true -> lstrip s = s.
Proof.
  destruct s as [|c s]; simpl; [reflexivity|].
  now destruct (isspace c).
Qed.

Lemma rstrip_fixed s : last_ok s = true -> rstrip s = s.
Proof.
  induction s as [|c s IH]; [reflexivity|].
  destruct s as [|a r].
  - simpl. now destruct (isspace c).
  - intros H. change (last_ok (String c (String a r))) with (last_ok (String a r)) in H.
    change (rstrip (String c (String a r)))
      with (match rstrip (String a r) with
            | "" => if isspace c then "" else String c ""
            | r' => String c r'
            end).
    now rewrite (IH H).
Qed.

Lemma head_ok_map f s :
  (forall c, isspace c = false -> isspace (f c) = false) ->
  head_ok s = true -> head_ok (map_chars f s) = true.
Proof.
  intros Hf. destruct s as [|c s]; simpl; [reflexivity|].
  intros H. apply negb_true_iff in H. now rewrite (Hf _ H).
Qed.

Lemma last_ok_map f s :
  (forall c, isspace c = false -> isspace (f c) = false) ->
  last_ok s = true -> last_ok (map_chars f s) = true.
Proof.
  intros Hf. induction s as [|c s IH]; [reflexivity|].
  destruct s as [|a r].
  - simpl. intros H. apply negb_true_iff in H. now rewrite (Hf _ H).
  - intros H. exact (IH H).
Qed.

Lemma strip_normalize_label s : strip (normalize_label s) = normalize_label s.
Proof.
  unfold normalize_label. rewrite replace_lower. unfold strip at 1.
  assert (Hh : head_ok (map_chars fold_char (strip s)) = true).
  { apply head_ok_map; [apply fold_char_keeps_nonspace|].
    apply head_ok_rstrip, head_ok_lstrip. }
  assert (Hl : last_ok (map_chars fold_char (strip s)) = true).
  { apply last_ok_map; [apply fold_char_keeps_nonspace|]. apply last_ok_rstrip. }
  rewrite (lstrip_fixed _ Hh). exact (rstrip_fixed _ Hl).
Qed.

Lemma normalize_label_idempotent s :
  normalize_label (normalize_label s) = normalize_label s.
Proof.
  unfold normalize_label at 1. rewrite strip_normalize_label.
  unfold normalize_label. rewrite !replace_lower, map_chars_map_chars.
  apply map_chars_ext, fold_char_idempotent.
Qed.

End TextFacts.

Lemma normalize_columns_labels labels :
  normalize_columns labels = map Text.normalize_label labels.
Proof.
  unfold normalize_columns, str_replace, str_lower, str_strip.
  rewrite !map_map. reflexivity.
Qed.

(** C6: the column-label transform of line 69 (strip, lower, replace
    spaces by underscores) is idempotent: applying it twice to any list of
    labels gives what applying it once gives. *)
Theorem normalize_columns_idempotent (labels : list string) :
  normalize_columns (normalize_columns labels) = normalize_columns labels.
Proof.
  rewrite !normalize_columns_labels, map_map.
  apply map_ext. intros s. apply TextFacts.normalize_label_idempotent.
Qed.

(** ** Tables: positions, stacking, assignment *)

Section TableFacts.

Context {number : Type} {W : @World number}.

Implicit Types (d p m : @DataFrame number) (r : @Row number) (c : @cell number).
Implicit Types (frames : list (@DataFrame number)).

Lemma positions_from_bounds i key labels j :
  j ∈ positions_from i key labels ->
  i <= j /\ labels !! (j - i) = Some key.
Proof.
  revert i. induction labels as [|l ls IH]; intros i; simpl.
  - intros H. inversion H.
  - destruct (String.eqb_spec l key) as [->|Hne].
    + intros [->|H]%elem_of_cons.
      * split; [lia|]. now rewrite Nat.sub_diag.
      * destruct (IH _ H) as [Hle Hl]. split; [lia|].
        replace (j - i) with (S (j - S i)) by lia. exact Hl.
    + intros H. destruct (IH _ H) as [Hle Hl]. split; [lia|].
      replace (j - i) with (S (j - S i)) by lia. exact Hl.
Qed.

Lemma positions_from_nil i key labels :
  positions_from i key labels = [] <-> key ∉ labels.
Proof.
  revert i. induction labels as [|l ls IH]; intros i; simpl.
  - split; [intros _ H; inversion H | reflexivity].
  - destruct (String.eqb_spec l key) as [->|Hne].
    + split; [discriminate | intros H; destruct H; left].
    + rewrite IH, not_elem_of_cons. intuition congruence.
Qed.

Lemma positions_nil key labels : positions key labels = [] <-> key ∉ labels.
Proof. apply positions_from_nil. Qed.

Lemma getitem_missing d key :
  key ∉ columns d -> getitem d key = Raise (KeyError key).
Proof. intros H. unfold getitem. now rewrite (proj2 (positions_nil _ _) H). Qed.

Lemma getitem_ok d key sel :
  getitem d key = Ok sel -> key ∈ columns d.
Proof.
  unfold getitem. intros H.
  destruct (decide (key ∈ columns d)) as [?|Hn]; [assumption|].
  now rewrite (proj2 (positions_nil _ _) Hn) in H.
Qed.

Lemma series_positions d key col :
  series d key = Ok col ->
  exists j, positions key (columns d) = [j] /\ col = column_at j d.
Proof.
  unfold series, getitem.
  destruct (positions key (columns d)) as [|j [|j' js]]; simpl; try discriminate.
  intros [= <-]. now exists j.
Qed.

Lemma positions_series d key j :
  positions key (columns d) = [j] -> series d key = Ok (column_at j d).
Proof. intros H. unfold series, getitem. now rewrite H. Qed.

Lemma field_position d key j r :
  positions key (columns d) = [j] -> field d key r = cell_at j r.
Proof. intros H. unfold field, field_at. now rewrite H. Qed.

(** *** Stacking *)

Lemma length_reset_index_from i (rs : list (@Row number)) :
  length (reset_index_from i rs) = length rs.
Proof. revert i. induction rs as [|r rs IH]; intros i; simpl; [|rewrite IH]; reflexivity. Qed.

Lemma labels_reset_index_from i (rs : list (@Row number)) :
  map label (reset_index_from i rs) = seq i (length rs).
Proof. revert i. induction rs as [|r rs IH]; intros i; simpl; [|rewrite IH]; reflexivity. Qed.

Lemma length_flat_map_rows (h : @DataFrame number -> list (@Row number))
      (frames : list (@DataFrame number)) :
  (forall f : @DataFrame number, length (h f) = nrows f) ->
  length (flat_map h frames) = sum_list (map nrows frames).
Proof.
  intros Hh. induction frames as [|f fs IH]; simpl; [reflexivity|].
  now rewrite length_app, Hh, IH.
Qed.

Lemma concat_nrows frames m :
  concat frames = Ok m -> nrows m = sum_list (map nrows frames).
Proof.
  unfold concat. destruct frames as [|f fs]; [discriminate|].
  destruct (forallb _ fs).
  - intros [= <-]. unfold nrows at 1. cbn [rows].
    rewrite length_reset_index_from.
    now apply (length_flat_map_rows rows (f :: fs)).
  - destruct (existsb _ (f :: fs)); [discriminate|].
    intros [= <-]. unfold nrows at 1. cbn [rows].
    rewrite length_reset_index_from.
    apply (length_flat_map_rows
             (fun g => map (reindex (union_columns (f :: fs)) g) (rows g))
             (f :: fs)).
    intros g. apply length_map.
Qed.

Lemma concat_labels frames m :
  concat frames = Ok m -> NoDup (map label (rows m)).
Proof.
  unfold concat. destruct frames as [|f fs]; [discriminate|].
  destruct (forallb _ fs); [|destruct (existsb _ (f :: fs)); [discriminate|]];
    intros [= <-]; cbn [rows]; rewrite labels_reset_index_from; apply NoDup_seq.
Qed.

(** *** The loading loop *)

Lemma sum_list_snoc (l : list nat) (n : nat) :
  sum_list (l ++ [n]) = sum_list l + n.
Proof. induction l as [|a l IH]; simpl; lia. Qed.

Lemma load_loop_rows files acc :
  sum_list (map nrows (load_loop files acc))
  = sum_list (map nrows acc) + sum_list (map source_rows files).
Proof.
  revert acc. induction files as [|file rest IH]; intros acc; simpl.
  - lia.
  - unfold source_rows at 1. destruct (read_csv file) as [t|e].
    + destruct (empty t).
      * rewrite IH. lia.
      * rewrite IH, map_app. simpl map. rewrite sum_list_snoc. lia.
    + rewrite IH. lia.
Qed.

Lemma merge_nrows frames m :
  merge frames = Ok m -> nrows m = sum_list (map nrows frames).
Proof.
  unfold merge. destruct frames; [discriminate|]. apply concat_nrows.
Qed.

Lemma merge_labels frames m :
  merge frames = Ok m -> NoDup (map label (rows m)).
Proof.
  unfold merge. destruct frames; [discriminate|]. apply concat_labels.
Qed.

(** *** Assignment of a column *)

Lemma length_assign_rows js vals (rs : list (@Row number)) :
  length (assign_rows js vals rs) = length rs.
Proof.
  revert vals. induction rs as [|r rs IH]; intros vals; simpl; [reflexivity|].
  destruct vals; simpl; now rewrite IH.
Qed.

Lemma labels_assign_rows js vals (rs : list (@Row number)) :
  map label (assign_rows js vals rs) = map label rs.
Proof.
  revert vals. induction rs as [|r rs IH]; intros vals; simpl; [reflexivity|].
  destruct vals; simpl; now rewrite IH.
Qed.

Lemma assign_rows_stamped j aware vals (rs : list (@Row number)) :
  Forall (fun r => isna (cell_at j r) = false ->
                   exists t, cell_at j r = Date (Timestamp aware t))
         (assign_rows [j] (map (stamp aware) vals) rs).
Proof.
  assert (Hset : forall v r,
             v = Date NaT \/ (exists t, v = Date (Timestamp aware t)) ->
             isna (cell_at j (set_cells [j] v r)) = false ->
             exists t, cell_at j (set_cells [j] v r) = Date (Timestamp aware t)).
  { intros v r Hv. unfold cell_at, set_cells. simpl.
    destruct (decide (j < length (cells r))) as [Hlt|Hge].
    - rewrite (nth_lookup_Some _ _ _ v) by now apply list_lookup_insert_eq.
      destruct Hv as [->|[t ->]]; [discriminate | eauto].
    - rewrite list_insert_ge by lia. rewrite nth_overflow by lia. discriminate. }
  revert vals. induction rs as [|r rs IH]; intros vals; simpl; [constructor|].
  destruct vals as [|v vals]; simpl.
  - constructor; [apply Hset; now left | exact (IH [])].
  - constructor; [|exact (IH vals)].
    apply Hset. destruct v; simpl; eauto.
Qed.

Lemma parse_dates_inv d p :
  parse_dates d = Ok p ->
  exists j aware vals,
    positions "date" (columns d) = [j]
    /\ columns p = columns d
    /\ rows p = assign_rows [j] (map (stamp aware) vals) (rows d).
Proof.
  unfold parse_dates, getitem.
  destruct (positions "date" (columns d)) as [|j [|j' js]] eqn:Hp; simpl;
    try discriminate.
  destruct (to_datetime_coerce (column_at j d)) as [[aware vals]|e]; simpl;
    [|discriminate].
  intros [= <-]. exists j, aware, vals. unfold setitem. simpl. now rewrite Hp.
Qed.

Lemma dropna_date_inv p d j :
  positions "date" (columns p) = [j] ->
  dropna ["date"] p = Ok d ->
  columns d = columns p
  /\ rows d = List.filter (fun r => negb (isna (cell_at j r))) (rows p).
Proof.
  intros Hp. unfold dropna. simpl. rewrite Hp. simpl. intros [= <-]. simpl.
  split; [reflexivity|]. apply filter_ext. intros r. simpl. apply andb_true_r.
Qed.

Lemma length_filter_split {A} (h : A -> bool) (l : list A) :
  length (List.filter h l) + length (List.filter (fun a => negb (h a)) l)
  = length l.
Proof.
  induction l as [|a l IH]; simpl; [reflexivity|].
  destruct (h a); simpl; lia.
Qed.

Lemma parsed_table_nrows files p :
  parsed_table files = Ok p -> nrows p = sum_list (map source_rows files).
Proof.
  unfold parsed_table. destruct files as [|f fs]; [discriminate|].
  destruct (merge (load_loop (f :: fs) [])) as [m|e] eqn:Hm; simpl; [|discriminate].
  intros Hp. apply parse_dates_inv in Hp as (j & aware & vals & _ & _ & Hr).
  unfold nrows. rewrite Hr, length_assign_rows. simpl.
  change (length (rows m)) with (nrows m).
  rewrite (merge_nrows _ _ Hm), load_loop_rows. simpl. lia.
Qed.

End TableFacts.

(** C5: the row count of the Unified Table is the sum of the row counts of
    the source tables that were parsed and are not empty, minus the number
    of rows dropped because their date is missing after parsing (the rows
    of the parsed table whose date is NaT), and the Unified Table is what
    is left of the parsed table. *)
Theorem unified_table_row_count {number : Type} {W : @World number}
        (files : list string) (d : @DataFrame number) :
  unified_table files = Ok d ->
  exists parsed,
    parsed_table files = Ok parsed
    /\ rows d = List.filter (fun r => negb (isna (field parsed "date" r)))
                            (rows parsed)
    /\ length (undated_rows parsed) <= sum_list (map source_rows files)
    /\ nrows d = sum_list (map source_rows files) - length (undated_rows parsed).
Proof.
  unfold unified_table.
  destruct (parsed_table files) as [p|e] eqn:Hp; simpl; [|discriminate].
  intros Hd. exists p. split; [reflexivity|].
  pose proof (parsed_table_nrows _ _ Hp) as Hn.
  assert (exists j, positions "date" (columns p) = [j]) as [j Hj].
  { unfold dropna in Hd. simpl in Hd.
    unfold parsed_table in Hp. destruct files; [discriminate|].
    destruct (merge _) as [m|]; simpl in Hp; [|discriminate].
    apply parse_dates_inv in Hp as (j & _ & _ & Hj & Hc & _).
    exists j. rewrite Hc. exact Hj. }
  destruct (dropna_date_inv _ _ _ Hj Hd) as [_ Hr].
  assert (Hf : rows d = List.filter (fun r => negb (isna (field p "date" r))) (rows p)).
  { rewrite Hr. apply filter_ext. intros r. now rewrite (field_position _ _ _ _ Hj). }
  split; [exact Hf|].
  pose proof (length_filter_split (fun r => isna (field p "date" r)) (rows p)) as Hs.
  unfold undated_rows, nrows in *. rewrite Hf. lia.
Qed.

(** ** What the start-up establishes *)

Section StartupFacts.

Context {number : Type} {W : @World number}.

Implicit Types (d p m : @DataFrame number) (r : @Row number) (c : @cell number).
Implicit Types (g : @Globals number).

Lemma NoDup_map_filter {A B} (f : A -> B) (h : A -> bool) (l : list A) :
  NoDup (map f l) -> NoDup (map f (List.filter h l)).
Proof.
  induction l as [|a l IH]; simpl; [trivial|].
  intros [Hn Hd]%NoDup_cons. destruct (h a); simpl; [|now apply IH].
  apply NoDup_cons. split; [|now apply IH].
  intros Hin. apply Hn.
  apply list_elem_of_In, in_map_iff in Hin as (x & <- & Hx).
  apply filter_In in Hx as [Hx _].
  apply list_elem_of_In, in_map_iff. eauto.
Qed.

Lemma unique_head c (l : list cell) :
  exists rest, unique (c :: l) = c :: rest.
Proof. unfold unique. simpl. eauto. Qed.

Lemma unique_nil_inv (l : list (@cell number)) : unique l = [] -> l = [].
Proof.
  destruct l as [|c l]; [reflexivity|].
  destruct (unique_head c l) as [rest ->]. discriminate.
Qed.

Lemma first_unique_inv d key a :
  first_unique d key = Ok a ->
  exists j r rs,
    positions key (columns d) = [j]
    /\ rows d = r :: rs /\ a = cell_at j r.
Proof.
  unfold first_unique, getitem.
  destruct (positions key (columns d)) as [|j [|j' js]]; simpl; try discriminate.
  unfold column_at, unique. destruct (rows d) as [|r rs]; simpl.
  - discriminate.
  - intros [= <-]. now exists j, r, rs.
Qed.

Lemma unified_table_inv files d :
  unified_table files = Ok d ->
  exists j aware,
    positions "date" (columns d) = [j]
    /\ Forall (fun r => exists t, cell_at j r = Date (Timestamp aware t)) (rows d)
    /\ NoDup (map label (rows d)).
Proof.
  unfold unified_table.
  destruct (parsed_table files) as [p|e] eqn:Hp; simpl; [|discriminate].
  intros Hd. unfold parsed_table in Hp. destruct files as [|f fs]; [discriminate|].
  destruct (merge (load_loop (f :: fs) [])) as [m|e] eqn:Hm; simpl in Hp;
    [|discriminate].
  pose proof (merge_labels _ _ Hm) as Hlab.
  apply parse_dates_inv in Hp as (j & aware & vals & Hj & Hc & Hr).
  rewrite <- Hc in Hj.
  destruct (dropna_date_inv _ _ _ Hj Hd) as [Hcd Hrd].
  exists j, aware. split; [|split].
  - now rewrite Hcd.
  - rewrite Hrd. apply Forall_forall. intros r Hin.
    apply list_elem_of_In, filter_In in Hin as [Hin Hna].
    pose proof (assign_rows_stamped j aware vals (rows (set_columns m (normalize_columns (columns m))))) as Hst.
    rewrite <- Hr in Hst. rewrite Forall_forall in Hst.
    apply Hst; [now apply list_elem_of_In|]. now apply negb_true_iff.
  - rewrite Hrd. apply NoDup_map_filter. rewrite Hr, labels_assign_rows. exact Hlab.
Qed.

Lemma startup_well_formed files g :
  startup files = Ok g -> exists jn jd aware, well_formed g jn jd aware.
Proof.
  unfold startup.
  destruct (unified_table files) as [d|e] eqn:Hd; simpl; [|discriminate].
  destruct (first_unique d "name") as [a|e] eqn:Ha; simpl; [|discriminate].
  intros [= <-].
  apply unified_table_inv in Hd as (jd & aware & Hjd & Hdated & Hlab).
  apply first_unique_inv in Ha as (jn & r & rs & Hjn & Hrows & Hdef).
  exists jn, jd, aware. constructor; simpl; eauto.
Qed.

End StartupFacts.

(** ** The filtered view *)

Section FilterFacts.

Context {number : Type} {W : @World number}.

Implicit Types (d view : @DataFrame number) (r : @Row number) (c : @cell number).
Implicit Types (g : @Globals number) (lo hi b : datetime).

Lemma select_rows_sublist (rs : list (@Row number)) mask :
  select_rows rs mask `sublist_of` rs.
Proof.
  revert mask. induction rs as [|r rs IH]; intros [|[] mask]; simpl;
    try apply sublist_nil_l.
  - apply sublist_skip, IH.
  - apply sublist_cons, IH.
Qed.

Lemma filter_sublist {A} (h : A -> bool) (l : list A) :
  List.filter h l `sublist_of` l.
Proof.
  induction l as [|a l IH]; simpl; [constructor|].
  destruct (h a); [apply sublist_skip | apply sublist_cons]; exact IH.
Qed.

Lemma select_rows_masks (rs : list (@Row number)) (f1 f2 f3 : Row -> bool) :
  select_rows rs (mask_and (mask_and (map f1 rs) (map f2 rs)) (map f3 rs))
  = List.filter (fun r => f1 r && f2 r && f3 r) rs.
Proof.
  unfold mask_and. induction rs as [|r rs IH]; simpl; [reflexivity|].
  rewrite IH. reflexivity.
Qed.

Lemma mapM_total {A B} (f : A -> result B) (h : A -> B) (l : list A) :
  Forall (fun a => f a = Ok (h a)) l -> mapM f l = Ok (map h l).
Proof.
  induction 1 as [|a l Ha _ IH]; simpl; [reflexivity|].
  rewrite Ha. simpl. rewrite IH. reflexivity.
Qed.

Lemma cell_ge_fits aware t b :
  fits aware b ->
  cell_ge (@Date number (Timestamp aware t)) b
  = Ok (geb (@Date number (Timestamp aware t)) b).
Proof.
  intros [->|[t' ->]]; unfold geb; simpl; [reflexivity|].
  now rewrite Bool.eqb_reflx.
Qed.

Lemma cell_le_fits aware t b :
  fits aware b ->
  cell_le (@Date number (Timestamp aware t)) b
  = Ok (leb (@Date number (Timestamp aware t)) b).
Proof.
  intros [->|[t' ->]]; unfold leb; simpl; [reflexivity|].
  now rewrite Bool.eqb_reflx.
Qed.

Lemma in_range_bools aware t lo hi :
  fits aware lo -> fits aware hi ->
  geb (@Date number (Timestamp aware t)) lo
  && leb (@Date number (Timestamp aware t)) hi = true
  <-> in_range lo hi (@Date number (Timestamp aware t)).
Proof.
  intros Hlo Hhi. unfold in_range, geb, leb. split.
  - intros [H1 H2]%andb_true_iff.
    destruct Hlo as [->|[tlo ->]]; simpl in H1; [discriminate|].
    destruct Hhi as [->|[thi ->]]; simpl in H2; [discriminate|].
    rewrite Bool.eqb_reflx in H1, H2.
    exists aware, t, tlo, thi. repeat split; lia.
  - intros (a & t0 & tlo & thi & [= <- <-] & -> & -> & Hle). simpl.
    rewrite Bool.eqb_reflx. apply andb_true_iff. split; lia.
Qed.

Lemma same_representation_fits g jn jd aware b :
  well_formed g jn jd aware -> same_representation (df g) b -> fits aware b.
Proof.
  intros [_ Hjd Hdated (r & rs & Hrows & _) _]. unfold same_representation.
  destruct b as [|a t]; [now left|]. intros Hb. right. exists t.
  destruct (Hb r) as [t' Ht']; [rewrite Hrows; left|].
  rewrite (field_position _ _ _ _ Hjd) in Ht'.
  rewrite Hrows in Hdated. apply Forall_cons in Hdated as [[t'' Ht''] _].
  congruence.
Qed.

(** The masks of lines 104 to 108, computed column by column, select the
    rows on which the three tests hold. *)
Lemma filter_rows_rows g jn jd aware athlete start_date end_date lo hi :
  well_formed g jn jd aware ->
  to_datetime start_date = Ok lo -> to_datetime end_date = Ok hi ->
  fits aware lo -> fits aware hi ->
  filter_rows g athlete start_date end_date
  = Ok {| columns := columns (df g);
          rows := List.filter
                    (fun r => cell_eq (cell_at jn r) athlete
                              && geb (cell_at jd r) lo && leb (cell_at jd r) hi)
                    (rows (df g)) |}.
Proof.
  intros [Hjn Hjd Hdated _ _] Hlo Hhi Flo Fhi. unfold filter_rows.
  rewrite (positions_series _ _ _ Hjn), (positions_series _ _ _ Hjd). simpl.
  rewrite Hlo, Hhi. simpl. unfold series_ge, series_le, column_at.
  rewrite (mapM_total (fun c => cell_ge c lo) (fun c => geb c lo)).
  2:{ apply Forall_map. eapply Forall_impl; [exact Hdated|].
      intros r [t ->]. now apply cell_ge_fits. }
  simpl. rewrite (mapM_total (fun c => cell_le c hi) (fun c => leb c hi)).
  2:{ apply Forall_map. eapply Forall_impl; [exact Hdated|].
      intros r [t ->]. now apply cell_le_fits. }
  simpl. unfold getitem_mask, series_eq. rewrite !map_map.
  rewrite (select_rows_masks (rows (df g))
             (fun r => cell_eq (cell_at jn r) athlete)
             (fun r => geb (cell_at jd r) lo) (fun r => leb (cell_at jd r) hi)).
  reflexivity.
Qed.

Lemma selected_matches g jn jd aware athlete lo hi r :
  well_formed g jn jd aware -> fits aware lo -> fits aware hi ->
  r ∈ rows (df g) ->
  cell_eq (cell_at jn r) athlete && geb (cell_at jd r) lo && leb (cell_at jd r) hi
  = true
  <-> matches (df g) athlete lo hi r.
Proof.
  intros [Hjn Hjd Hdated _ _] Flo Fhi Hin. unfold matches.
  rewrite (field_position _ _ _ _ Hjn), (field_position _ _ _ _ Hjd).
  rewrite Forall_forall in Hdated. destruct (Hdated _ Hin) as [t ->].
  rewrite <- andb_assoc, andb_true_iff.
  now rewrite (in_range_bools aware t lo hi Flo Fhi).
Qed.

Lemma filter_rows_view g athlete start_date end_date view :
  filter_rows g athlete start_date end_date = Ok view ->
  exists mask, view = getitem_mask (df g) mask.
Proof.
  unfold filter_rows.
  repeat match goal with
         | |- context [mbind _ ?x] => destruct x; simpl; try discriminate
         end.
  intros [= <-]. eauto.
Qed.

Lemma getitem_present d key :
  key ∈ columns d -> exists sel, getitem d key = Ok sel.
Proof.
  intros Hin. unfold getitem.
  destruct (positions key (columns d)) as [|j [|j' js]] eqn:Hp; eauto.
  apply positions_nil in Hp. contradiction.
Qed.

(** The test [==] of the code is equality by exact match. *)
Lemma cell_eq_exact c v : cell_eq c v = true <-> exact_match c v.
Proof.
  destruct c as [|x|s|[|a1 n1]], v as [|y|t|[|a2 n2]]; simpl;
    try (split; [discriminate | contradiction]); try reflexivity.
  - apply String.eqb_eq.
  - rewrite andb_true_iff, Z.eqb_eq. split.
    + intros [Ha ->]. split; [|reflexivity]. now apply Bool.eqb_prop.
    + intros [-> ->]. split; [apply Bool.eqb_reflx | reflexivity].
Qed.

End FilterFacts.

(** C2: on the Unified Table of a start-up, with the two bounds coerced to
    the representation of the date column, the filter returns a view that
    holds exactly the rows of the table whose subject equals the given one
    by exact match and whose date lies between the bounds, both included:
    the view is a subsequence of the table's rows, and a row is in it if
    and only if it is a row of the table whose subject is the given value
    and whose date is in the range. *)
Theorem filter_rows_exact {number : Type} {W : @World number}
        (files : list string) (g : @Globals number) (athlete : @cell number)
        (start_date end_date : date_arg) (lo hi : datetime) :
  startup files = Ok g ->
  to_datetime start_date = Ok lo ->
  to_datetime end_date = Ok hi ->
  same_representation (df g) lo ->
  same_representation (df g) hi ->
  exists view,
    filter_rows g athlete start_date end_date = Ok view
    /\ rows view `sublist_of` rows (df g)
    /\ forall r, r ∈ rows view <->
                 r ∈ rows (df g)
                 /\ exact_match (field (df g) "name" r) athlete
                 /\ in_range lo hi (field (df g) "date" r).
Proof.
  intros Hs Hlo Hhi Rlo Rhi.
  destruct (startup_well_formed _ _ Hs) as (jn & jd & aware & Hwf).
  pose proof (same_representation_fits _ _ _ _ _ Hwf Rlo) as Flo.
  pose proof (same_representation_fits _ _ _ _ _ Hwf Rhi) as Fhi.
  eexists. split; [exact (filter_rows_rows _ _ _ _ athlete _ _ _ _ Hwf Hlo Hhi Flo Fhi)|].
  simpl. split.
  - apply filter_sublist.
  - intros r. rewrite list_elem_of_In, filter_In, <- list_elem_of_In.
    rewrite <- cell_eq_exact.
    split; intros [Hin Hm]; (split; [exact Hin|]);
      now apply (selected_matches _ _ _ _ athlete lo hi r Hwf Flo Fhi Hin).
Qed.

(** C7: whatever the subject and the date range, a view that the filter
    returns is a subsequence of the rows of the Unified Table and has the
    columns of the Unified Table. *)
Theorem filtered_view_subset {number : Type} {W : @World number}
        (g : @Globals number) (athlete : @cell number)
        (start_date end_date : date_arg) (view : @DataFrame number) :
  filter_rows g athlete start_date end_date = Ok view ->
  rows view `sublist_of` rows (df g) /\ columns view = columns (df g).
Proof.
  intros H. destruct (filter_rows_view _ _ _ _ _ H) as [mask ->]. simpl.
  split; [apply select_rows_sublist | reflexivity].
Qed.

(** C3: on the Unified Table of a start-up, for bounds that coerce to the
    representation of the date column, when no row of the table matches
    the subject and the range, [create_plot] returns the fixed notice and
    does not raise, whatever the two metric names. *)
Theorem no_match_renders_notice {number : Type} {W : @World number}
        (files : list string) (g : @Globals number) (athlete : @cell number)
        (var1 var2 : string) (start_date end_date : date_arg)
        (lo hi : datetime) :
  startup files = Ok g ->
  to_datetime start_date = Ok lo ->
  to_datetime end_date = Ok hi ->
  same_representation (df g) lo ->
  same_representation (df g) hi ->
  (forall r, r ∈ rows (df g) -> ~ matches (df g) athlete lo hi r) ->
  create_plot g athlete var1 var2 start_date end_date
  = Ok "<h3>No data available for the selected athlete and date range.</h3>".
Proof.
  intros Hs Hlo Hhi Rlo Rhi Hnone.
  destruct (startup_well_formed _ _ Hs) as (jn & jd & aware & Hwf).
  pose proof (same_representation_fits _ _ _ _ _ Hwf Rlo) as Flo.
  pose proof (same_representation_fits _ _ _ _ _ Hwf Rhi) as Fhi.
  unfold create_plot.
  rewrite (filter_rows_rows _ _ _ _ athlete _ _ _ _ Hwf Hlo Hhi Flo Fhi). simpl.
  assert (Hnil : List.filter
                   (fun r => cell_eq (cell_at jn r) athlete
                             && geb (cell_at jd r) lo && leb (cell_at jd r) hi)
                   (rows (df g)) = []).
  { destruct (List.filter _ _) as [|r rs] eqn:Hf; [reflexivity|]. exfalso.
    assert (Hin : In r (List.filter
                   (fun r => cell_eq (cell_at jn r) athlete
                             && geb (cell_at jd r) lo && leb (cell_at jd r) hi)
                   (rows (df g)))) by (rewrite Hf; now left).
    apply filter_In in Hin as [Hin Hsel]. apply list_elem_of_In in Hin.
    apply (Hnone r Hin).
    now apply (selected_matches _ _ _ _ athlete lo hi r Hwf Flo Fhi Hin). }
  unfold empty, nrows. simpl. rewrite Hnil. reflexivity.
Qed.

(** C4: for a filtered view that is not empty, when the first or the second
    metric is not a column of the view, [create_plot] raises the
    missing-column error (KeyError) for a metric that is not a column, and
    returns no markup. *)
Theorem missing_metric_raises {number : Type} {W : @World number}
        (g : @Globals number) (athlete : @cell number) (var1 var2 : string)
        (start_date end_date : date_arg) (view : @DataFrame number) :
  filter_rows g athlete start_date end_date = Ok view ->
  empty view = false ->
  var1 ∉ columns view \/ var2 ∉ columns view ->
  exists key,
    create_plot g athlete var1 var2 start_date end_date = Raise (KeyError key)
    /\ (key = var1 \/ key = var2)
    /\ key ∉ columns view.
Proof.
  intros Hv Hne Hmiss. unfold create_plot. rewrite Hv. simpl. rewrite Hne.
  assert (Hdate : exists sel, getitem view "date" = Ok sel).
  { apply getitem_present.
    destruct (filter_rows_view _ _ _ _ _ Hv) as [mask ->]. simpl.
    unfold filter_rows in Hv.
    destruct (series (df g) "name") as [names|]; simpl in Hv; [|discriminate].
    destruct (series (df g) "date") as [dates|] eqn:Hd; [|discriminate].
    apply series_positions in Hd as (j & Hj & _).
    destruct (decide ("date" ∈ columns (df g))) as [?|Hn]; [assumption|].
    apply positions_nil in Hn. congruence. }
  destruct Hdate as [xs Hxs]. rewrite Hxs. simpl.
  destruct (decide (var1 ∈ columns view)) as [Hin1|Hout1].
  - destruct (getitem_present _ _ Hin1) as [ys ->]. simpl.
    destruct Hmiss as [?|Hout2]; [contradiction|].
    rewrite (getitem_missing _ _ Hout2). simpl. exists var2. auto.
  - rewrite (getitem_missing _ _ Hout1). simpl. exists var1. auto.
Qed.

(** ** The parameters of a request *)

Section RequestFacts.

Context {number : Type} {W : @World number}.

Implicit Types (d : @DataFrame number) (r : @Row number) (g : @Globals number).

Lemma series_min_dated j aware (rs : list (@Row number)) :
  Forall (fun r => exists t, cell_at j r = Date (Timestamp aware t)) rs ->
  rs <> [] ->
  exists t,
    series_min (map (cell_at j) rs) = Timestamp aware t
    /\ (exists r, r ∈ rs /\ cell_at j r = Date (Timestamp aware t))
    /\ forall r, r ∈ rs ->
                 exists t', cell_at j r = Date (Timestamp aware t') /\ (t <= t')%Z.
Proof.
  induction 1 as [|r rs [t0 Hr] Hrs IH]; [congruence|]. intros _.
  destruct rs as [|r' rs'].
  - exists t0. simpl. rewrite Hr. simpl. split; [reflexivity|]. split.
    + exists r. split; [left | exact Hr].
    + intros x [->|Hx]%elem_of_cons; [|inversion Hx].
      exists t0. split; [exact Hr | lia].
  - destruct IH as (t & Hmin & (x & Hx & Hxt) & Hall); [discriminate|].
    change (series_min (map (cell_at j) (r :: r' :: rs')))
      with (match cell_at j r with
            | Date dt => min_datetime dt (series_min (map (cell_at j) (r' :: rs')))
            | _ => series_min (map (cell_at j) (r' :: rs'))
            end).
    rewrite Hr, Hmin. simpl. exists (Z.min t0 t). split; [reflexivity|]. split.
    + destruct (Z.min_spec t0 t) as [[_ ->]|[_ ->]].
      * exists r. split; [left | exact Hr].
      * exists x. split; [now right | exact Hxt].
    + intros y [->|Hy]%elem_of_cons.
      * exists t0. split; [exact Hr | lia].
      * destruct (Hall y Hy) as (t' & Ht' & Hle). exists t'. split; [exact Ht' | lia].
Qed.

Lemma series_max_dated j aware (rs : list (@Row number)) :
  Forall (fun r => exists t, cell_at j r = Date (Timestamp aware t)) rs ->
  rs <> [] ->
  exists t,
    series_max (map (cell_at j) rs) = Timestamp aware t
    /\ (exists r, r ∈ rs /\ cell_at j r = Date (Timestamp aware t))
    /\ forall r, r ∈ rs ->
                 exists t', cell_at j r = Date (Timestamp aware t') /\ (t' <= t)%Z.
Proof.
  induction 1 as [|r rs [t0 Hr] Hrs IH]; [congruence|]. intros _.
  destruct rs as [|r' rs'].
  - exists t0. simpl. rewrite Hr. simpl. split; [reflexivity|]. split.
    + exists r. split; [left | exact Hr].
    + intros x [->|Hx]%elem_of_cons; [|inversion Hx].
      exists t0. split; [exact Hr | lia].
  - destruct IH as (t & Hmax & (x & Hx & Hxt) & Hall); [discriminate|].
    change (series_max (map (cell_at j) (r :: r' :: rs')))
      with (match cell_at j r with
            | Date dt => max_datetime dt (series_max (map (cell_at j) (r' :: rs')))
            | _ => series_max (map (cell_at j) (r' :: rs'))
            end).
    rewrite Hr, Hmax. simpl. exists (Z.max t0 t). split; [reflexivity|]. split.
    + destruct (Z.max_spec t0 t) as [[_ ->]|[_ ->]].
      * exists x. split; [now right | exact Hxt].
      * exists r. split; [left | exact Hr].
    + intros y [->|Hy]%elem_of_cons.
      * exists t0. split; [exact Hr | lia].
      * destruct (Hall y Hy) as (t' & Ht' & Hle). exists t'. split; [exact Ht' | lia].
Qed.

Lemma get_or_absent {A} form key (inj : string -> A) default :
  form_get form key = None -> get_or form key inj default = default.
Proof. unfold get_or. now intros ->. Qed.

Lemma get_or_present {A} form key (inj : string -> A) default v :
  form_get form key = Some v -> get_or form key inj default = inj v.
Proof. unfold get_or. now intros ->. Qed.

Lemma read_params_ok g jn jd aware form :
  well_formed g jn jd aware ->
  read_params g form
  = Ok {| p_athlete := get_or form "athlete" Str (DEFAULT_ATHLETE g);
          p_var1 := get_or form "var1" id DEFAULT_VAR1;
          p_var2 := get_or form "var2" id DEFAULT_VAR2;
          p_start_date :=
            get_or form "start_date" DateStr
                   (DateVal (series_min (column_at jd (df g))));
          p_end_date :=
            get_or form "end_date" DateStr
                   (DateVal (series_max (column_at jd (df g)))) |}.
Proof.
  intros [_ Hjd _ _ _]. unfold read_params.
  rewrite (positions_series _ _ _ Hjd). reflexivity.
Qed.

End RequestFacts.


(** ** The process *)

Section ProcessFacts.

Context {number : Type} {W : @World number}.

Implicit Types (d : @DataFrame number) (g : @Globals number).

Lemma positions_from_unique i key labels :
  NoDup labels -> key ∈ labels -> exists j, positions_from i key labels = [j].
Proof.
  revert i. induction labels as [|l ls IH]; intros i Hnd Hin; [inversion Hin|].
  apply NoDup_cons in Hnd as [Hnot Hnd]. simpl.
  destruct (String.eqb_spec l key) as [->|Hne].
  - exists i. now rewrite (proj2 (positions_from_nil (S i) key ls) Hnot).
  - apply elem_of_cons in Hin as [->|Hin]; [congruence|]. now apply IH.
Qed.

(** The view [index] of the factory answers GET and POST on the root path
    with the rendered template. *)
Lemma create_app_dispatch g req :
  path req = "/" -> method req = GET \/ method req = POST ->
  dispatch (create_app g) req
  = match index g (form req) with
    | Ok body => Page body
    | Raise e => InternalServerError e
    end.
Proof.
  intros Hp Hm. unfold dispatch, create_app, route. simpl. rewrite Hp. simpl.
  destruct Hm as [-> | ->]; simpl; now destruct (index g (form req)).
Qed.

Lemma index_response g form html names :
  (p ← read_params g form;
   create_plot g (p_athlete p) (p_var1 p) (p_var2 p) (p_start_date p) (p_end_date p))
  = Ok html ->
  series (df g) "name" = Ok names ->
  index g form
  = render_template "index.html"
      {| plot_html := html; athletes := unique names;
         variables := columns (df g) |}.
Proof.
  unfold index. destruct (read_params g form) as [p|]; simpl; [|discriminate].
  intros -> ->. reflexivity.
Qed.

End ProcessFacts.

(** C1 (as the code has it): after a start-up, the application that the
    process serves is the module-level [app], whose only rule is the root
    path bound to [home]: a GET is answered with the fixed text "Flask is
    working!", whatever the form, and a POST is refused (405).  The view
    [index] of the factory, which renders the chart, is not served. *)
Theorem served_app_is_home {number : Type} {W : @World number}
        (files : list string) (g : @Globals number) (f : form_data) :
  startup files = Ok g ->
  main files = Serving app
  /\ map rule app = ["/"]
  /\ dispatch app {| method := GET; path := "/"; form := f |}
     = Page "Flask is working!"
  /\ dispatch app {| method := POST; path := "/"; form := f |}
     = MethodNotAllowed.
Proof.
  intros Hs. unfold main. rewrite Hs. repeat split.
Qed.

(** C10: the start-up succeeds only on a Unified Table that has a column
    "name" and at least one row.  When the Unified Table has no column
    "name", the process exits with a KeyError on that label; when it has no
    row, the process exits as well, with an IndexError if the labels are
    distinct and "name" is one of them.  In both cases no application is
    served. *)
Theorem startup_needs_name {number : Type} {W : @World number}
        (files : list string) :
  (forall g, startup files = Ok g ->
             unified_table files = Ok (df g)
             /\ "name" ∈ columns (df g) /\ rows (df g) <> [])
  /\ (forall d, unified_table files = Ok d -> "name" ∉ columns d ->
                main files = Exited (KeyError "name"))
  /\ (forall d, unified_table files = Ok d -> rows d = [] ->
                exists e, main files = Exited e
                          /\ ("name" ∈ columns d -> NoDup (columns d) ->
                              e = IndexError)).
Proof.
  split; [|split].
  - intros g Hs. unfold startup in Hs.
    destruct (unified_table files) as [d|] eqn:Hd; simpl in Hs; [|discriminate].
    destruct (first_unique d "name") as [a|] eqn:Ha; simpl in Hs; [|discriminate].
    injection Hs as <-. simpl. split; [reflexivity|].
    apply first_unique_inv in Ha as (j & r & rs & Hj & Hr & _). split.
    + destruct (decide ("name" ∈ columns d)) as [?|Hn]; [assumption|].
      apply positions_nil in Hn. congruence.
    + rewrite Hr. discriminate.
  - intros d Hd Hn. unfold main, startup. rewrite Hd. simpl.
    unfold first_unique. now rewrite (getitem_missing _ _ Hn).
  - intros d Hd Hr. unfold main, startup. rewrite Hd. simpl.
    unfold first_unique, getitem, column_at. rewrite Hr.
    destruct (positions "name" (columns d)) as [|j [|j' js]] eqn:Hp; simpl.
    + eexists. split; [reflexivity|]. intros Hin _.
      apply positions_nil in Hp. contradiction.
    + eexists. split; [reflexivity|]. reflexivity.
    + eexists. split; [reflexivity|]. intros Hin Hnd.
      destruct (positions_from_unique 0 _ _ Hnd Hin) as [j0 Hj0].
      unfold positions in Hp. congruence.
Qed.

(** ** The archive extractor *)

Section ExtractFacts.

Context {number : Type} {W : @World number}.

Implicit Types (fs : gmap string bytes) (names : list string).
Implicit Types (filelist : list ZipInfo).

Lemma append_inj_l (a x y : string) : a +:+ x = a +:+ y -> x = y.
Proof. induction a as [|c a IH]; simpl; [trivial|]. intros [= H]. auto. Qed.

Lemma substring_all (s : string) : substring 0 (String.length s) s = s.
Proof. induction s as [|c s IH]; simpl; [reflexivity | now rewrite IH]. Qed.

Lemma basename_cons c s :
  basename (String c s)
  = match Text.after_last_slash s with
    | 0 => if Ascii.eqb c "/" then s else String c s
    | S _ => basename s
    end.
Proof.
  unfold basename. simpl Text.after_last_slash.
  destruct (Text.after_last_slash s) as [|k] eqn:Hk.
  - destruct (Ascii.eqb c "/"); simpl.
    + rewrite Nat.sub_0_r. apply substring_all.
    + now rewrite substring_all.
  - reflexivity.
Qed.

Lemma basename_head p c s : basename p = String c s -> c <> "/"%char.
Proof.
  induction p as [|c0 p IH]; [discriminate|].
  rewrite basename_cons.
  destruct (Text.after_last_slash p) as [|k] eqn:Hk; [|exact IH].
  destruct (Ascii.eqb_spec c0 "/") as [->|Hne].
  - intros ->. simpl in Hk.
    destruct (Text.after_last_slash s); [|discriminate].
    destruct (Ascii.eqb_spec c "/"); [discriminate | assumption].
  - now intros [= <- _].
Qed.

Lemma basename_relative p : String.prefix "/" (basename p) = false.
Proof.
  destruct (basename p) as [|c s] eqn:Hb; [reflexivity|].
  apply basename_head in Hb. cbn [String.prefix].
  destruct (Ascii.ascii_dec "/" c) as [<-|_]; [congruence|reflexivity].
Qed.

Lemma extracted_path_inj f f' :
  extracted_path f = extracted_path f' -> basename f = basename f'.
Proof.
  unfold extracted_path, path_join.
  rewrite !basename_relative.
  destruct (_ || _).
  - apply append_inj_l.
  - intros H. apply append_inj_l in H. now injection H.
Qed.

(** A member whose base name is not [b] leaves the file of [b] alone. *)
Lemma extract_names_other filelist names fs f :
  (forall n, n ∈ names -> Text.endswith n ".csv" = true ->
             basename n <> basename f) ->
  (extract_names filelist names fs).1 !! extracted_path f
  = fs !! extracted_path f.
Proof.
  revert fs. induction names as [|n names IH]; intros fs Hn; [reflexivity|].
  simpl. destruct (Text.endswith n ".csv") eqn:Hcsv.
  - assert (Hp : extracted_path n <> extracted_path f).
    { intros E. apply extracted_path_inj in E. revert E. apply Hn; [left|exact Hcsv]. }
    destruct (zip_open filelist n) as [[b|e|e]|]; simpl.
    + rewrite IH; [now rewrite lookup_insert_ne|].
      intros. apply Hn; [now right | assumption].
    + reflexivity.
    + now rewrite lookup_insert_ne.
    + reflexivity.
  - apply IH. intros. apply Hn; [now right | assumption].
Qed.

(** The names before [f] are all extracted, then [f] is. *)
Lemma extract_names_reach filelist before f after fs b :
  (forall n, n ∈ before -> Text.endswith n ".csv" = true ->
             exists c, zip_open filelist n = Some (Content c)) ->
  Text.endswith f ".csv" = true ->
  zip_open filelist f = Some (Content b) ->
  exists fs',
    extract_names filelist (before ++ f :: after) fs
    = extract_names filelist after (<[extracted_path f := b]> fs').
Proof.
  revert fs. induction before as [|n before IH]; intros fs Hbefore Hcsv Hopen.
  - exists fs. simpl. now rewrite Hcsv, Hopen.
  - simpl. destruct (Text.endswith n ".csv") eqn:Hn.
    + destruct (Hbefore n) as [c ->]; [left | exact Hn |].
      apply IH; [|assumption..]. intros. apply Hbefore; [now right | assumption].
    + apply IH; [|assumption..]. intros. apply Hbefore; [now right | assumption].
Qed.

Lemma extract_all_app zs zs' fs :
  extract_all (zs ++ zs') fs = extract_all zs' (extract_all zs fs).
Proof. unfold extract_all. apply fold_left_app. Qed.

Lemma extract_all_other (zs : list (result (list ZipInfo))) fs f :
  (forall filelist i, Ok filelist ∈ zs -> i ∈ filelist ->
                      Text.endswith (filename i) ".csv" = true ->
                      basename (filename i) <> basename f) ->
  extract_all zs fs !! extracted_path f = fs !! extracted_path f.
Proof.
  revert fs. induction zs as [|z zs IH]; intros fs Hz; [reflexivity|].
  change (extract_all (z :: zs) fs) with (extract_all zs (extract_zip z fs)).
  rewrite IH.
  - destruct z as [filelist|e]; [|reflexivity]. simpl.
    apply extract_names_other. intros n Hin Hcsv.
    apply list_elem_of_fmap in Hin as (i & -> & Hi).
    apply (Hz filelist i); [left | assumption..].
  - intros filelist i Hin. apply Hz. now right.
Qed.

End ExtractFacts.

(** * The theorems at work on the sample world *)

#[local] Existing Instance Sample.world.

Ltac each_row H :=
  repeat (apply elem_of_cons in H as [->|H]); [..|inversion H].

Ltac no_such_label H :=
  repeat (apply elem_of_cons in H as [H|H]; [discriminate H|]); inversion H.

Example sample_startup : startup Sample.csv_files = Ok Sample.globals.
Proof. vm_compute. reflexivity. Qed.

Example sample_labels :
  normalize_columns ["Date"; " Name"; "Time To Takeoff"; "mRSI "]
  = ["date"; "name"; "time_to_takeoff"; "mrsi"].
Proof. reflexivity. Qed.

Example sample_chart :
  create_plot Sample.globals (Str "A") "time_to_takeoff" "mrsi"
              (DateStr "2024-01-01") (DateStr "2024-01-15")
  = Ok "<div>time_to_takeoff,mrsi</div>".
Proof. vm_compute. reflexivity. Qed.

Example sample_unparseable_bound :
  create_plot Sample.globals (Str "A") "time_to_takeoff" "mrsi"
              (DateStr "soon") (DateStr "2024-01-15")
  = Raise ValueError.
Proof. vm_compute. reflexivity. Qed.

Example sample_aware_bound :
  create_plot Sample.globals (Str "A") "time_to_takeoff" "mrsi"
              (DateStr "2024-01-01T00:00:00Z") (DateStr "2024-01-15")
  = Raise TypeError.
Proof. vm_compute. reflexivity. Qed.

Example sample_factory_post :
  dispatch (create_app Sample.globals)
           {| method := POST; path := "/"; form := [("athlete", "B")] |}
  = Page "<form>date,name,time_to_takeoff,mrsi</form><div>time_to_takeoff,mrsi</div>".
Proof. vm_compute. reflexivity. Qed.

Lemma unified_table_row_count_witness :
  unified_table Sample.csv_files = Ok (df Sample.globals)
  /\ exists parsed,
      parsed_table Sample.csv_files = Ok parsed
      /\ rows (df Sample.globals)
         = List.filter (fun r => negb (isna (field parsed "date" r))) (rows parsed)
      /\ length (undated_rows parsed) <= sum_list (map source_rows Sample.csv_files)
      /\ nrows (df Sample.globals)
         = sum_list (map source_rows Sample.csv_files) - length (undated_rows parsed).
Proof.
  split; [vm_compute; reflexivity|].
  apply (unified_table_row_count Sample.csv_files (df Sample.globals)).
  vm_compute. reflexivity.
Defined.

Lemma filter_rows_exact_witness :
  exists view,
    filter_rows Sample.globals (Str "A") (DateStr "2024-01-01") (DateStr "2024-01-15")
    = Ok view
    /\ rows view `sublist_of` rows (df Sample.globals)
    /\ forall r, r ∈ rows view <->
                 r ∈ rows (df Sample.globals)
                 /\ exact_match (field (df Sample.globals) "name" r) (Str "A")
                 /\ in_range (Timestamp false 1704067200000000000)
                             (Timestamp false 1705276800000000000)
                             (field (df Sample.globals) "date" r).
Proof.
  apply (filter_rows_exact Sample.csv_files Sample.globals (Str "A")
           (DateStr "2024-01-01") (DateStr "2024-01-15")
           (Timestamp false 1704067200000000000)
           (Timestamp false 1705276800000000000)).
  - vm_compute. reflexivity.
  - vm_compute. reflexivity.
  - vm_compute. reflexivity.
  - intros r Hr. each_row Hr; eexists; vm_compute; reflexivity.
  - intros r Hr. each_row Hr; eexists; vm_compute; reflexivity.
Defined.

Lemma filtered_view_subset_witness :
  filter_rows Sample.globals (Str "A") (DateStr "2024-01-01") (DateStr "2024-01-15")
  = Ok Sample.view_A
  /\ rows Sample.view_A `sublist_of` rows (df Sample.globals)
  /\ columns Sample.view_A = columns (df Sample.globals).
Proof.
  split; [vm_compute; reflexivity|].
  apply (filtered_view_subset Sample.globals (Str "A")
           (DateStr "2024-01-01") (DateStr "2024-01-15") Sample.view_A).
  vm_compute. reflexivity.
Defined.

Lemma no_match_renders_notice_witness :
  create_plot Sample.globals (Str "C") "time_to_takeoff" "mrsi"
              (DateStr "2024-01-01") (DateStr "2024-01-15")
  = Ok "<h3>No data available for the selected athlete and date range.</h3>".
Proof.
  apply (no_match_renders_notice Sample.csv_files Sample.globals (Str "C")
           "time_to_takeoff" "mrsi" (DateStr "2024-01-01") (DateStr "2024-01-15")
           (Timestamp false 1704067200000000000)
           (Timestamp false 1705276800000000000)).
  - vm_compute. reflexivity.
  - vm_compute. reflexivity.
  - vm_compute. reflexivity.
  - intros r Hr. each_row Hr; eexists; vm_compute; reflexivity.
  - intros r Hr. each_row Hr; eexists; vm_compute; reflexivity.
  - intros r Hr [Hname _]. each_row Hr; vm_compute in Hname; discriminate.
Defined.

Lemma missing_metric_raises_witness :
  exists key,
    create_plot Sample.globals (Str "A") "time_to_takeoff" "nonexistent_column"
                (DateStr "2024-01-01") (DateStr "2024-01-15")
    = Raise (KeyError key)
    /\ (key = "time_to_takeoff" \/ key = "nonexistent_column")
    /\ key ∉ columns Sample.view_A.
Proof.
  apply (missing_metric_raises Sample.globals (Str "A")
           "time_to_takeoff" "nonexistent_column"
           (DateStr "2024-01-01") (DateStr "2024-01-15") Sample.view_A).
  - vm_compute. reflexivity.
  - vm_compute. reflexivity.
  - right. intros H. no_such_label H.
Defined.


Lemma served_app_is_home_witness :
  main Sample.csv_files = Serving app
  /\ map rule app = ["/"]
  /\ dispatch app {| method := GET; path := "/"; form := [("athlete", "B")] |}
     = Page "Flask is working!"
  /\ dispatch app {| method := POST; path := "/"; form := [("athlete", "B")] |}
     = MethodNotAllowed.
Proof.
  apply (served_app_is_home Sample.csv_files Sample.globals [("athlete", "B")]).
  vm_compute. reflexivity.
Defined.

Lemma startup_needs_name_witness :
  main ["no_name.csv"] = Exited (KeyError "name").
Proof.
  eapply (proj1 (proj2 (startup_needs_name ["no_name.csv"]))).
  - vm_compute. reflexivity.
  - intros H. no_such_label H.
Defined.

(** * Further properties of the start-up script *)

Section MergeFacts.

Context {number : Type} {W : @World number}.

Implicit Types (d p m f : @DataFrame number) (r : @Row number).
Implicit Types (frames : list (@DataFrame number)).

Lemma positions_from_complete i key labels k :
  labels !! k = Some key -> (i + k) ∈ positions_from i key labels.
Proof.
  revert i k. induction labels as [|l ls IH]; intros i k Hk; [discriminate|].
  simpl. destruct k as [|k]; simpl in Hk.
  - injection Hk as ->. rewrite String.eqb_refl, Nat.add_0_r. left.
  - replace (i + S k) with (S i + k) by lia.
    destruct (String.eqb l key); [right|]; now apply IH.
Qed.

Lemma positions_head key labels j js :
  positions key labels = j :: js -> labels !! j = Some key.
Proof.
  intros H. destruct (positions_from_bounds 0 key labels j) as [_ Hj].
  - unfold positions in H. rewrite H. left.
  - now rewrite Nat.sub_0_r in Hj.
Qed.

Lemma cells_reset_index_from i (rs : list (@Row number)) :
  map cells (reset_index_from i rs) = map cells rs.
Proof. revert i. induction rs as [|r rs IH]; intros i; simpl; [|rewrite IH]; reflexivity. Qed.

Lemma map_field_reset (labels : list string) key i (rs : list (@Row number)) :
  map (field_at labels key) (reset_index_from i rs) = map (field_at labels key) rs.
Proof.
  revert i. induction rs as [|r rs IH]; intros i; simpl; [reflexivity|].
  now rewrite IH.
Qed.

Lemma map_flat_map {A B C} (h : B -> C) (k : A -> list B) (l : list A) :
  map h (flat_map k l) = flat_map (fun a => map h (k a)) l.
Proof.
  induction l as [|a l IH]; simpl; [reflexivity|]. now rewrite map_app, IH.
Qed.

Lemma stacked_fields (labels : list string) key
      (h : @DataFrame number -> list (@Row number)) frames :
  map (field_at labels key) (reset_index_from 0 (flat_map h frames))
  = flat_map (fun g => map (field_at labels key) (h g)) frames.
Proof. now rewrite map_field_reset, map_flat_map. Qed.

Lemma flat_map_ext_in {A B} (h k : A -> list B) (l : list A) :
  (forall a, a ∈ l -> h a = k a) -> flat_map h l = flat_map k l.
Proof.
  induction l as [|a l IH]; intros H; simpl; [reflexivity|].
  rewrite (H a) by left. rewrite IH; [reflexivity|]. intros. apply H. now right.
Qed.

Lemma append_new_elem acc labels l :
  l ∈ append_new acc labels <-> l ∈ acc \/ l ∈ labels.
Proof.
  revert acc. induction labels as [|x xs IH]; intros acc; simpl.
  - split; [now left | intros [?|H]; [assumption | inversion H]].
  - destruct (existsb (String.eqb x) acc) eqn:Hx.
    + rewrite IH, elem_of_cons. split; [tauto|]. intros [?|[->|?]]; auto.
      left. apply existsb_exists in Hx as (y & Hy & ->%String.eqb_eq).
      now apply list_elem_of_In.
    + rewrite IH, elem_of_app, !elem_of_cons, elem_of_nil. tauto.
Qed.

Lemma union_columns_elem frames acc l :
  l ∈ fold_left (fun acc f => append_new acc (columns f)) frames acc
  <-> l ∈ acc \/ exists f, f ∈ frames /\ l ∈ columns f.
Proof.
  revert acc. induction frames as [|f fs IH]; intros acc; simpl.
  - split; [now left | intros [?|(f & Hf & _)]; [assumption | inversion Hf]].
  - rewrite IH, append_new_elem. split.
    + intros [[?|?]|(f' & Hf' & ?)]; eauto.
      * right. exists f. split; [left | assumption].
      * right. exists f'. split; [now right | assumption].
    + intros [?|(f' & [->|Hf']%elem_of_cons & ?)]; eauto.
Qed.

Lemma field_reindex target f r key :
  (key ∈ columns f -> key ∈ target) ->
  field_at target key (reindex target f r) = field_at (columns f) key r.
Proof.
  intros Hsub. unfold field_at at 1.
  destruct (positions key target) as [|j js] eqn:Hp.
  - apply positions_nil in Hp. unfold field_at.
    destruct (positions key (columns f)) as [|j' js'] eqn:Hp'; [reflexivity|].
    exfalso. apply Hp, Hsub.
    destruct (decide (key ∈ columns f)) as [?|Hn]; [assumption|].
    apply positions_nil in Hn. congruence.
  - apply positions_head in Hp. unfold cell_at, reindex. simpl.
    apply nth_lookup_Some with (d := NaN).
    now rewrite list_lookup_fmap, Hp.
Qed.

End MergeFacts.

(** The rows of the merged table are the rows of the frames, in order,
    laid out on the labels of the merged table and relabelled. *)
Lemma merge_stacks_fields {number : Type} {W : @World number}
        (frames : list (@DataFrame number)) (m : @DataFrame number) :
  merge frames = Ok m ->
  map label (rows m) = seq 0 (sum_list (map nrows frames))
  /\ forall key,
      map (field m key) (rows m)
      = flat_map (fun f => map (field f key) (rows f)) frames.
Proof.
  intros Hm. split.
  - unfold merge in Hm. destruct frames as [|f fs]; [discriminate|].
    pose proof (concat_nrows _ _ Hm) as Hn. unfold concat in Hm.
    destruct (forallb _ fs); [|destruct (existsb _ (f :: fs)); [discriminate|]];
      injection Hm as <-; unfold nrows in Hn; cbn [rows] in *;
      rewrite labels_reset_index_from; rewrite length_reset_index_from in Hn;
      now rewrite Hn.
  - intros key. unfold merge in Hm. destruct frames as [|f fs]; [discriminate|].
    unfold concat in Hm. unfold field.
    destruct (forallb _ fs) eqn:Hall.
    + injection Hm as <-.
      etransitivity; [apply (stacked_fields (columns f) key rows (f :: fs))|].
      apply flat_map_ext_in. intros g [->|Hg]%elem_of_cons; [reflexivity|].
      rewrite forallb_forall in Hall.
      apply list_elem_of_In, Hall in Hg. unfold labels_eqb in Hg.
      apply bool_decide_eq_true in Hg. now rewrite Hg.
    + destruct (existsb _ (f :: fs)); [discriminate|].
      injection Hm as <-.
      etransitivity;
        [apply (stacked_fields (union_columns (f :: fs)) key
                  (fun g => map (reindex (union_columns (f :: fs)) g) (rows g))
                  (f :: fs))|].
      apply flat_map_ext_in. intros g Hg. rewrite map_map.
      apply map_ext. intros r. apply field_reindex.
      intros Hkey. unfold union_columns. apply union_columns_elem. right. eauto.
Qed.

Lemma merge_labels_union {number : Type} {W : @World number}
      (frames : list (@DataFrame number)) (m : @DataFrame number) (l : string) :
  merge frames = Ok m ->
  l ∈ columns m <-> exists f, f ∈ frames /\ l ∈ columns f.
Proof.
  unfold merge. destruct frames as [|f fs]; [discriminate|]. unfold concat.
  destruct (forallb _ fs) eqn:Hall.
  - intros [= <-]. cbn [columns]. split.
    + intros Hl. exists f. split; [left | exact Hl].
    + intros (g & [->|Hg]%elem_of_cons & Hl); [exact Hl|].
      rewrite forallb_forall in Hall.
      apply list_elem_of_In, Hall in Hg. unfold labels_eqb in Hg.
      apply bool_decide_eq_true in Hg. now rewrite <- Hg.
  - destruct (existsb _ (f :: fs)); [discriminate|].
    intros [= <-]. cbn [columns]. unfold union_columns.
    rewrite union_columns_elem. split.
    + intros [Hl|Hl]; [inversion Hl | exact Hl].
    + now right.
Qed.

(** X1: what merging keeps.  The merged table has the labels of the
    frames and no other, its rows are relabelled 0, 1, 2, ..., and under
    every label the text cells of its column are those of the columns of
    the frames under that label, in the order of the frames and at the
    same places: a cell holds a string in the merged table exactly where
    the source cell holds that string.  (Numeric cells, which pandas may
    cast to the common dtype of the column, are not spoken of.) *)
Theorem merge_keeps_text {number : Type} {W : @World number}
        (frames : list (@DataFrame number)) (m : @DataFrame number) :
  merge frames = Ok m ->
  map label (rows m) = seq 0 (sum_list (map nrows frames))
  /\ (forall l, l ∈ columns m <-> exists f, f ∈ frames /\ l ∈ columns f)
  /\ forall key,
      map (fun r => text_of (field m key r)) (rows m)
      = flat_map (fun f => map (fun r => text_of (field f key r)) (rows f))
                 frames.
Proof.
  intros Hm. destruct (merge_stacks_fields _ _ Hm) as [Hlab Hcols].
  split; [exact Hlab|]. split.
  - intros l. now apply merge_labels_union.
  - intros key.
    rewrite <- (map_map (field m key) text_of), Hcols.
    rewrite (map_flat_map text_of (fun f => map (field f key) (rows f)) frames).
    apply flat_map_ext_in. intros f _. apply map_map.
Qed.

(** X2: the start-up exits with status 1 when no file yields a table: the
    list of files is empty, or every file fails to parse or is empty. *)
Theorem startup_exits_without_tables {number : Type} {W : @World number}
        (files : list string) :
  (forall file, file ∈ files -> source_rows file = 0) ->
  main files = Exited (SystemExit 1).
Proof.
  intros Hnone.
  assert (Hload : forall acc, load_loop files acc = acc).
  { induction files as [|file rest IH]; intros acc; [reflexivity|]. simpl.
    pose proof (Hnone file ltac:(left)) as H0. unfold source_rows in H0.
    assert (IH' : forall acc, load_loop rest acc = acc).
    { apply IH. intros. apply Hnone. now right. }
    destruct (read_csv file) as [t|e]; [|apply IH'].
    destruct (empty t) eqn:He; [apply IH'|].
    exfalso. unfold empty in He. rewrite H0 in He. discriminate. }
  unfold main, startup, unified_table, parsed_table.
  destruct files as [|file rest]; [reflexivity|].
  rewrite Hload. reflexivity.
Qed.

(** X3: the start-up needs exactly one column that normalises to "date".
    On a merged table with no such label the process exits with a KeyError
    on "date"; with two of them (say "Date" and "date") it exits with a
    ValueError. *)
Theorem startup_needs_one_date {number : Type} {W : @World number}
        (files : list string) (m : @DataFrame number) :
  merge (load_loop files []) = Ok m ->
  ("date" ∉ normalize_columns (columns m) ->
   main files = Exited (KeyError "date"))
  /\ (forall i j, i <> j ->
        normalize_columns (columns m) !! i = Some "date" ->
        normalize_columns (columns m) !! j = Some "date" ->
        main files = Exited ValueError).
Proof.
  intros Hm.
  assert (Hfiles : files <> []).
  { intros ->. discriminate Hm. }
  assert (Hmain : main files
                  = match (d ← parse_dates (set_columns m (normalize_columns (columns m)));
                           d ← dropna ["date"] d;
                           a ← first_unique d "name";
                           Ok {| df := d; DEFAULT_ATHLETE := a |}) with
                    | Ok _ => Serving app
                    | Raise e => Exited e
                    end).
  { unfold main, startup, unified_table, parsed_table.
    destruct files; [congruence|]. rewrite Hm. simpl.
    destruct (parse_dates _); reflexivity. }
  rewrite Hmain. unfold parse_dates. split.
  - intros Hn.
    rewrite (getitem_missing (set_columns m (normalize_columns (columns m))) "date" Hn).
    reflexivity.
  - intros i j Hij Hi Hj. unfold getitem. cbn [columns set_columns].
    pose proof (positions_from_complete 0 _ _ _ Hi) as Pi.
    pose proof (positions_from_complete 0 _ _ _ Hj) as Pj.
    fold (positions "date" (normalize_columns (columns m))) in Pi, Pj.
    destruct (positions "date" (normalize_columns (columns m))) as [|a [|b l]].
    + inversion Pi.
    + apply list_elem_of_singleton in Pi, Pj. simpl in Pi, Pj. congruence.
    + reflexivity.
Qed.

(** X4: what every request can rely on.  In the Unified Table the label
    "date" occurs once, every row has a date that is an instant, all of one
    awareness, the row labels are distinct, and the column labels are the
    normalised labels of the merged table. *)
Theorem unified_table_invariant {number : Type} {W : @World number}
        (files : list string) (d : @DataFrame number) :
  unified_table files = Ok d ->
  (exists j, positions "date" (columns d) = [j])
  /\ (exists aware, forall r, r ∈ rows d ->
        exists t, field d "date" r = Date (Timestamp aware t))
  /\ NoDup (map label (rows d))
  /\ exists m, merge (load_loop files []) = Ok m
               /\ columns d = normalize_columns (columns m).
Proof.
  intros Hd.
  destruct (unified_table_inv _ _ Hd) as (j & aware & Hj & Hdated & Hlab).
  split; [eauto|]. split.
  { exists aware. intros r Hr. rewrite (field_position _ _ _ _ Hj).
    rewrite Forall_forall in Hdated. now apply Hdated. }
  split; [exact Hlab|].
  unfold unified_table, parsed_table in Hd.
  destruct files as [|f fs]; [discriminate|].
  destruct (merge (load_loop (f :: fs) [])) as [m|] eqn:Hm; simpl in Hd; [|discriminate].
  exists m. split; [reflexivity|].
  destruct (parse_dates _) as [p|] eqn:Hp; simpl in Hd; [|discriminate].
  apply parse_dates_inv in Hp as (j' & aw & vals & Hj' & Hc & _).
  rewrite <- Hc in Hj'.
  destruct (dropna_date_inv _ _ _ Hj' Hd) as [Hcd _].
  now rewrite Hcd, Hc.
Qed.

(** X5: the labels line 69 produces are clean: none starts or ends with
    white space, none holds a space, and lower-casing changes none of their
    characters. *)
Theorem normalized_labels_clean (labels : list string) :
  Forall (fun l => Text.head_ok l = true /\ Text.last_ok l = true
                   /\ Forall (fun c => c <> " "%char /\ Text.lower_char c = c)
                             (list_ascii_of_string l))
         (normalize_columns labels).
Proof.
  rewrite normalize_columns_labels. apply Forall_map, Forall_forall.
  intros s _. unfold Text.normalize_label. rewrite TextFacts.replace_lower.
  split; [|split].
  - apply TextFacts.head_ok_map; [apply TextFacts.fold_char_keeps_nonspace|].
    apply TextFacts.head_ok_rstrip, TextFacts.head_ok_lstrip.
  - apply TextFacts.last_ok_map; [apply TextFacts.fold_char_keeps_nonspace|].
    apply TextFacts.last_ok_rstrip.
  - induction (Text.strip s) as [|c t IH]; simpl; constructor; [|exact IH].
    clear. destruct c as [[] [] [] [] [] [] [] []]; vm_compute; split; congruence.
Qed.

(** * Further properties of the archive extractor *)

Section ExtractMore.

Context {number : Type} {W : @World number}.

Implicit Types (fs : gmap string bytes) (names : list string).
Implicit Types (filelist : list ZipInfo) (log : list (string * bytes)).

Lemma extract_names_replay filelist names fs :
  (extract_names filelist names fs).1
  = replay (writes_of_names filelist names) fs.
Proof.
  revert fs. induction names as [|n names IH]; intros fs; [reflexivity|].
  simpl. destruct (Text.endswith n ".csv"); [|apply IH].
  destruct (zip_open filelist n) as [[b|e|e]|]; try reflexivity.
  simpl. apply IH.
Qed.

Lemma replay_app log log' fs :
  replay (log ++ log') fs = replay log' (replay log fs).
Proof. apply fold_left_app. Qed.

Lemma extract_all_replay (zs : list (result (list ZipInfo))) fs :
  extract_all zs fs = replay (flat_map writes_of_zip zs) fs.
Proof.
  revert fs. induction zs as [|z zs IH]; intros fs; [reflexivity|].
  change (extract_all (z :: zs) fs) with (extract_all zs (extract_zip z fs)).
  simpl flat_map. rewrite replay_app, IH. f_equal.
  destruct z as [filelist|e]; [|reflexivity]. apply extract_names_replay.
Qed.

(** What a log leaves at a path: the last write to it, if any. *)
Lemma replay_lookup log fs p :
  replay log fs !! p
  = match List.find (fun w => String.eqb w.1 p) (rev log) with
    | Some w => Some w.2
    | None => fs !! p
    end.
Proof.
  revert fs. induction log as [|[q b] log IH] using rev_ind; intros fs;
    [reflexivity|].
  rewrite replay_app, rev_app_distr. simpl.
  destruct (String.eqb_spec q p) as [->|Hne].
  - apply lookup_insert_eq.
  - rewrite lookup_insert_ne by assumption. apply IH.
Qed.

Lemma writes_of_names_csv filelist names p b :
  (p, b) ∈ writes_of_names filelist names ->
  exists n, n ∈ names /\ Text.endswith n ".csv" = true /\ p = extracted_path n.
Proof.
  induction names as [|n names IH]; simpl; [intros H; inversion H|].
  destruct (Text.endswith n ".csv") eqn:Hcsv.
  - destruct (zip_open filelist n) as [[c|e|e]|].
    + intros [[= -> ->]|H]%elem_of_cons.
      * exists n. repeat split; [left | assumption].
      * destruct (IH H) as (n' & ? & ? & ?). exists n'. repeat split; [now right|assumption..].
    + intros H; inversion H.
    + intros [= -> ->]%list_elem_of_singleton. exists n. repeat split; [left | assumption].
    + intros H; inversion H.
  - intros H. destruct (IH H) as (n' & ? & ? & ?).
    exists n'. repeat split; [now right|assumption..].
Qed.

Lemma extract_names_app filelist names names' fs :
  extract_names filelist (names ++ names') fs
  = match extract_names filelist names fs with
    | (fs1, None) => extract_names filelist names' fs1
    | (fs1, Some e) => (fs1, Some e)
    end.
Proof.
  revert fs. induction names as [|n names IH]; intros fs; [reflexivity|].
  simpl. destruct (Text.endswith n ".csv"); [|apply IH].
  destruct (zip_open filelist n) as [[b|e|e]|]; try reflexivity. apply IH.
Qed.

(** *** Paths *)

Lemma length_append (a b : string) :
  String.length (a +:+ b) = String.length a + String.length b.
Proof. induction a as [|c a IH]; simpl; [reflexivity | now rewrite IH]. Qed.

Lemma substring_append_r (a b : string) :
  substring (String.length a) (String.length b) (a +:+ b) = b.
Proof. induction a as [|c a IH]; simpl; [apply substring_all | exact IH]. Qed.

Lemma endswith_append (a suffix : string) :
  Text.endswith (a +:+ suffix) suffix = true.
Proof.
  unfold Text.endswith. rewrite length_append.
  replace (String.length a + String.length suffix - String.length suffix)
    with (String.length a) by lia.
  rewrite substring_append_r, String.eqb_refl, andb_true_r.
  apply Nat.leb_le. lia.
Qed.

Lemma substring_split (s : string) (i : nat) :
  i <= String.length s ->
  s = substring 0 i s +:+ substring i (String.length s - i) s.
Proof.
  revert i. induction s as [|c s IH]; intros i Hi.
  - destruct i; [reflexivity | simpl in Hi; lia].
  - destruct i as [|i]; simpl.
    + now rewrite substring_all.
    + simpl in Hi. change (String c s = String c (substring 0 i s +:+ substring i (String.length s - i) s)).
      f_equal. apply IH. lia.
Qed.

Lemma endswith_inv (s suffix : string) :
  Text.endswith s suffix = true -> exists a, s = a +:+ suffix.
Proof.
  unfold Text.endswith. intros [Hle Heq]%andb_true_iff.
  apply Nat.leb_le in Hle. apply String.eqb_eq in Heq.
  exists (substring 0 (String.length s - String.length suffix) s).
  pose proof (substring_split s (String.length s - String.length suffix)
                ltac:(lia)) as H.
  replace (String.length s - (String.length s - String.length suffix))
    with (String.length suffix) in H by lia.
  now rewrite Heq in H.
Qed.




Lemma after_last_slash_zero (s : string) :
  Text.after_last_slash s = 0 <-> no_slash s.
Proof.
  unfold no_slash. induction s as [|c s IH]; simpl.
  - split; [constructor | reflexivity].
  - rewrite Forall_cons, <- IH.
    destruct (Text.after_last_slash s) as [|k].
    + destruct (Ascii.eqb_spec c "/") as [->|Hne].
      * split; [discriminate | intros [H _]; contradiction].
      * split; auto.
    + split; [discriminate | intros [_ ?]; discriminate].
Qed.

Lemma basename_split (p : string) :
  exists dir, p = dir +:+ basename p
              /\ (dir = "" \/ Text.endswith dir "/" = true)
              /\ Text.after_last_slash (basename p) = 0.
Proof.
  induction p as [|c p (dir & Hp & Hdir & Hb)].
  - exists "". repeat split; auto.
  - rewrite basename_cons.
    destruct (Text.after_last_slash p) as [|k] eqn:Hk.
    + destruct (Ascii.eqb_spec c "/") as [->|Hne].
      * exists "/". repeat split; auto.
      * exists "". repeat split; auto. simpl. rewrite Hk.
        now destruct (Ascii.eqb_spec c "/").
    + exists (String c dir). split.
      { change (String c p = String c (dir +:+ basename p)). now rewrite <- Hp. }
      split; [|exact Hb].
      right. destruct Hdir as [->|Hd].
      * change (p = basename p) in Hp. rewrite <- Hp in Hb. congruence.
      * apply endswith_inv in Hd as [a ->].
        change (String c (a +:+ "/")) with (String c a +:+ "/").
        apply endswith_append.
Qed.

End ExtractMore.

(** C9: two payload entries with the same base filename are written to the
    same path of the working directory, and the later one wins.  Let
    [later] be a ".csv" member of an archive whose bytes are read, preceded
    in its archive by members that are all extracted, and followed, in its
    archive and in the archives after it, by no ".csv" member of the same
    base filename.  Then for every ".csv" member [earlier] of the same
    base filename, before it in the same archive or in an archive before
    it, the two have one extracted path; that path is the extraction
    folder followed, after a slash unless the folder is empty or ends in
    one, by the base filename, which holds no slash; and after the
    extraction the path holds the bytes of [later], and so no other
    bytes, whatever [earlier] held. *)
Theorem later_entry_overwrites {number : Type} {W : @World number}
        (fs : gmap string bytes)
        (zs1 zs2 : list (result (list ZipInfo)))
        (es1 es2 : list ZipInfo) (earlier later : ZipInfo) (b : bytes) :
  Text.endswith (filename later) ".csv" = true ->
  zip_open (es1 ++ later :: es2) (filename later) = Some (Content b) ->
  (forall i, i ∈ es1 -> Text.endswith (filename i) ".csv" = true ->
             exists c, zip_open (es1 ++ later :: es2) (filename i)
                       = Some (Content c)) ->
  (forall i, i ∈ es2 -> Text.endswith (filename i) ".csv" = true ->
             basename (filename i) <> basename (filename later)) ->
  (forall filelist i, Ok filelist ∈ zs2 -> i ∈ filelist ->
                      Text.endswith (filename i) ".csv" = true ->
                      basename (filename i) <> basename (filename later)) ->
  earlier ∈ es1 \/ (exists filelist, Ok filelist ∈ zs1 /\ earlier ∈ filelist) ->
  Text.endswith (filename earlier) ".csv" = true ->
  basename (filename earlier) = basename (filename later) ->
  extracted_path (filename earlier) = extracted_path (filename later)
  /\ (extracted_path (filename later)
      = EXTRACT_FOLDER +:+ "/" +:+ basename (filename later)
      \/ (EXTRACT_FOLDER = "" \/ Text.endswith EXTRACT_FOLDER "/" = true)
         /\ extracted_path (filename later)
            = EXTRACT_FOLDER +:+ basename (filename later))
  /\ no_slash (basename (filename later))
  /\ extract_all (zs1 ++ Ok (es1 ++ later :: es2) :: zs2) fs
       !! extracted_path (filename earlier) = Some b
  /\ forall b', extract_all (zs1 ++ Ok (es1 ++ later :: es2) :: zs2) fs
                  !! extracted_path (filename earlier) = Some b' -> b' = b.
Proof.
  intros Hcsv Hopen Hbefore Hafter Hlater _ _ Hbase.
  assert (Hpath : extracted_path (filename earlier) = extracted_path (filename later)).
  { unfold extracted_path. now rewrite Hbase. }
  assert (Hfinal : extract_all (zs1 ++ Ok (es1 ++ later :: es2) :: zs2) fs
                     !! extracted_path (filename earlier) = Some b).
  { rewrite Hpath, extract_all_app.
    change (extract_all (Ok (es1 ++ later :: es2) :: zs2) (extract_all zs1 fs))
      with (extract_all zs2 (extract_zip (Ok (es1 ++ later :: es2)) (extract_all zs1 fs))).
    rewrite (extract_all_other zs2 _ (filename later) Hlater).
    unfold extract_zip. rewrite map_app. simpl map.
    destruct (extract_names_reach (es1 ++ later :: es2) (map filename es1)
                (filename later) (map filename es2) (extract_all zs1 fs) b)
      as [fs' ->]; [|assumption..|].
    - intros n Hin Hn. apply list_elem_of_fmap in Hin as (i & -> & Hi).
      now apply Hbefore.
    - rewrite extract_names_other; [apply lookup_insert_eq|].
      intros n Hin Hn. apply list_elem_of_fmap in Hin as (i & -> & Hi).
      now apply Hafter. }
  split; [exact Hpath|]. split; [|split; [|split]].
  - unfold extracted_path, path_join. rewrite basename_relative.
    destruct (String.eqb_spec EXTRACT_FOLDER "") as [He|He]; simpl.
    + right. split; [now left | reflexivity].
    + destruct (Text.endswith EXTRACT_FOLDER "/") eqn:Hs.
      * right. split; [now right | reflexivity].
      * now left.
  - destruct (basename_split (filename later)) as (_ & _ & _ & H).
    now apply after_last_slash_zero.
  - exact Hfinal.
  - intros b' Hb'. rewrite Hfinal in Hb'. now injection Hb'.
Qed.

(** X6: extracting twice is extracting once: run again on the directory
    it has produced, the extractor leaves it as it is. *)
Theorem extract_all_idempotent {number : Type} {W : @World number}
        (zs : list (result (list ZipInfo))) (fs : gmap string bytes) :
  extract_all zs (extract_all zs fs) = extract_all zs fs.
Proof.
  rewrite !extract_all_replay. apply map_eq. intros p.
  rewrite !replay_lookup.
  now destruct (List.find _ (rev (flat_map writes_of_zip zs))).
Qed.

(** X7: the extractor deletes nothing: every path of the directory before
    the extraction is a path of the directory after it. *)
Theorem extract_all_keeps_files {number : Type} {W : @World number}
        (zs : list (result (list ZipInfo))) (fs : gmap string bytes) :
  dom fs ⊆ dom (extract_all zs fs).
Proof.
  intros p [b Hb]%elem_of_dom. apply elem_of_dom.
  rewrite extract_all_replay, replay_lookup.
  destruct (List.find _ _); eauto.
Qed.

(** X8: the extractor writes nowhere but at the extracted paths of the
    ".csv" members: a path whose content the extraction has changed is the
    path, in the extraction folder, of the base filename of a member whose
    name ends in ".csv". *)
Theorem extract_all_touches_only_csv {number : Type} {W : @World number}
        (zs : list (result (list ZipInfo))) (fs : gmap string bytes)
        (p : string) :
  extract_all zs fs !! p <> fs !! p ->
  exists filelist i,
    Ok filelist ∈ zs /\ i ∈ filelist
    /\ Text.endswith (filename i) ".csv" = true
    /\ p = path_join EXTRACT_FOLDER (basename (filename i)).
Proof.
  rewrite extract_all_replay, replay_lookup.
  destruct (List.find _ _) as [[q b]|] eqn:Hf; [intros _ | congruence].
  apply find_some in Hf as [Hin Hq]. simpl in Hq. apply String.eqb_eq in Hq as ->.
  apply in_rev, in_flat_map in Hin as (z & Hz & Hw).
  destruct z as [filelist|e]; [|destruct Hw].
  apply list_elem_of_In, writes_of_names_csv in Hw as (n & Hn & Hcsv & ->).
  apply list_elem_of_fmap in Hn as (i & -> & Hi).
  exists filelist, i. repeat split; try assumption. now apply list_elem_of_In.
Qed.

(** X10: a member that fails ends its archive.  When the members before it
    are extracted, a ".csv" member that cannot be opened leaves the
    directory as they left it, a ".csv" member whose data cannot be read
    leaves an empty file at its path, and in both cases no member after it
    is extracted. *)
Theorem failing_member_ends_archive {number : Type} {W : @World number}
        (filelist : list ZipInfo) (before after : list string)
        (file : string) (fs fs1 : gmap string bytes) (e : exn) :
  extract_names filelist before fs = (fs1, None) ->
  Text.endswith file ".csv" = true ->
  (zip_open filelist file = Some (OpenError e) ->
   extract_names filelist (before ++ file :: after) fs = (fs1, Some e))
  /\ (zip_open filelist file = Some (ReadError e) ->
      extract_names filelist (before ++ file :: after) fs
      = (<[extracted_path file := []]> fs1, Some e)).
Proof.
  intros Hbefore Hcsv.
  split; intros Hopen; rewrite extract_names_app, Hbefore; simpl;
    now rewrite Hcsv, Hopen.
Qed.

(** X11: [os.path.basename] cuts a path after its last slash: the path is
    a directory part, empty or ending in a slash, followed by the base
    name, and the base name holds no slash. *)
Theorem basename_decomposition
        (p : string) :
  exists dir,
    p = dir +:+ basename p
    /\ (dir = "" \/ Text.endswith dir "/" = true)
    /\ no_slash (basename p).
Proof.
  destruct (basename_split p) as (dir & Hp & Hdir & Hb).
  exists dir. repeat split; try assumption. now apply after_last_slash_zero.
Qed.


(** * Further properties of the views *)

Section ViewFacts.

Context {number : Type} {W : @World number}.

Implicit Types (d view : @DataFrame number) (r : @Row number) (c : @cell number).
Implicit Types (g : @Globals number) (lo hi b : datetime).

Lemma filter_none {A} (h : A -> bool) (l : list A) :
  (forall a, a ∈ l -> h a = false) -> List.filter h l = [].
Proof.
  induction l as [|a l IH]; intros H; simpl; [reflexivity|].
  rewrite (H a) by left. apply IH. intros. apply H. now right.
Qed.

Lemma fits_refl aware t : fits aware (Timestamp aware t).
Proof. right. eauto. Qed.

(** The default bounds hold every date of the table. *)
Lemma default_bounds g jn jd aware :
  well_formed g jn jd aware ->
  exists tmin tmax,
    series_min (column_at jd (df g)) = Timestamp aware tmin
    /\ series_max (column_at jd (df g)) = Timestamp aware tmax
    /\ forall r, r ∈ rows (df g) ->
                 geb (cell_at jd r) (Timestamp aware tmin) = true
                 /\ leb (cell_at jd r) (Timestamp aware tmax) = true.
Proof.
  intros [_ _ Hdated (r0 & rs0 & Hrows & _) _].
  assert (Hne : rows (df g) <> []) by (rewrite Hrows; discriminate).
  destruct (series_min_dated jd aware _ Hdated Hne) as (tmin & Hmin & _ & Hlo).
  destruct (series_max_dated jd aware _ Hdated Hne) as (tmax & Hmax & _ & Hhi).
  exists tmin, tmax. unfold column_at. repeat split; try assumption.
  - destruct (Hlo r H) as (t & -> & Ht). unfold geb. simpl.
    rewrite Bool.eqb_reflx. lia.
  - destruct (Hhi r H) as (t & -> & Ht). unfold leb. simpl.
    rewrite Bool.eqb_reflx. lia.
Qed.

Lemma filter_rows_has_date g athlete start_date end_date view :
  filter_rows g athlete start_date end_date = Ok view ->
  "date" ∈ columns view.
Proof.
  intros Hv. destruct (filter_rows_view _ _ _ _ _ Hv) as [mask ->]. simpl.
  unfold filter_rows in Hv.
  destruct (series (df g) "name") as [names|]; simpl in Hv; [|discriminate].
  destruct (series (df g) "date") as [dates|] eqn:Hd; [|discriminate].
  apply series_positions in Hd as (j & Hj & _).
  destruct (decide ("date" ∈ columns (df g))) as [?|Hn]; [assumption|].
  apply positions_nil in Hn. congruence.
Qed.

Lemma create_plot_first_missing g athlete var1 var2 start_date end_date view :
  filter_rows g athlete start_date end_date = Ok view ->
  empty view = false ->
  var1 ∉ columns view ->
  create_plot g athlete var1 var2 start_date end_date = Raise (KeyError var1).
Proof.
  intros Hv Hne H1. unfold create_plot. rewrite Hv. simpl. rewrite Hne.
  destruct (getitem_present _ _ (filter_rows_has_date _ _ _ _ _ Hv)) as [xs ->].
  simpl. now rewrite (getitem_missing _ _ H1).
Qed.

Lemma create_plot_second_missing g athlete var1 var2 start_date end_date view :
  filter_rows g athlete start_date end_date = Ok view ->
  empty view = false ->
  var1 ∈ columns view -> var2 ∉ columns view ->
  create_plot g athlete var1 var2 start_date end_date = Raise (KeyError var2).
Proof.
  intros Hv Hne H1 H2. unfold create_plot. rewrite Hv. simpl. rewrite Hne.
  destruct (getitem_present _ _ (filter_rows_has_date _ _ _ _ _ Hv)) as [xs ->].
  simpl. destruct (getitem_present _ _ H1) as [ys ->]. simpl.
  now rewrite (getitem_missing _ _ H2).
Qed.

Lemma getitem_unique d key :
  NoDup (columns d) -> key ∈ columns d ->
  getitem d key = Ok (Series (map (field d key) (rows d))).
Proof.
  intros Hnd Hin. destruct (positions_from_unique 0 _ _ Hnd Hin) as [j Hj].
  fold (positions key (columns d)) in Hj. unfold getitem. rewrite Hj.
  unfold column_at. do 2 f_equal. apply map_ext. intros r.
  now rewrite (field_position _ _ _ _ Hj).
Qed.

Lemma dispatch_root g req :
  path req = "/" ->
  dispatch (create_app g) req
  = match method req with
    | GET | POST =>
        match index g (form req) with
        | Ok body => Page body
        | Raise e => InternalServerError e
        end
    | HEAD =>
        match index g (form req) with
        | Ok _ => Headers
        | Raise e => InternalServerError e
        end
    | OPTIONS => Headers
    | PUT | DELETE => MethodNotAllowed
    end.
Proof.
  intros Hp. unfold dispatch, create_app, route. simpl. rewrite Hp. simpl.
  destruct (method req); simpl; try reflexivity; now destruct (index g (form req)).
Qed.

End ViewFacts.

(** X13: without date fields the filter is by subject alone.  After a
    start-up, on a form that has neither a start nor an end date, the view
    holds the rows of the table whose subject equals the requested one, all
    of them; and when the subject is left out too and the default subject
    equals itself, the view is not empty. *)
Theorem default_dates_keep_all_rows {number : Type} {W : @World number}
        (files : list string) (g : @Globals number) (form : form_data) :
  startup files = Ok g ->
  form_get form "start_date" = None ->
  form_get form "end_date" = None ->
  exists p view,
    read_params g form = Ok p
    /\ filter_rows g (p_athlete p) (p_start_date p) (p_end_date p) = Ok view
    /\ (forall r, r ∈ rows view <->
                  r ∈ rows (df g)
                  /\ cell_eq (field (df g) "name" r) (p_athlete p) = true)
    /\ (form_get form "athlete" = None ->
        cell_eq (DEFAULT_ATHLETE g) (DEFAULT_ATHLETE g) = true ->
        rows view <> []).
Proof.
  intros Hs Hsd Hed.
  destruct (startup_well_formed _ _ Hs) as (jn & jd & aware & Hwf).
  destruct (default_bounds _ _ _ _ Hwf) as (tmin & tmax & Hmin & Hmax & Hin).
  eexists. eexists. split; [exact (read_params_ok _ _ _ _ form Hwf)|]. simpl.
  rewrite (get_or_absent _ _ _ _ Hsd), (get_or_absent _ _ _ _ Hed), Hmin, Hmax.
  split.
  { exact (filter_rows_rows g jn jd aware _
             (DateVal (Timestamp aware tmin)) (DateVal (Timestamp aware tmax))
             (Timestamp aware tmin) (Timestamp aware tmax) Hwf eq_refl eq_refl
             (fits_refl _ _) (fits_refl _ _)). }
  simpl.
  assert (Hiff : forall a r,
             In r (List.filter
                     (fun r => cell_eq (cell_at jn r) a
                               && geb (cell_at jd r) (Timestamp aware tmin)
                               && leb (cell_at jd r) (Timestamp aware tmax))
                     (rows (df g)))
             <-> r ∈ rows (df g) /\ cell_eq (field (df g) "name" r) a = true).
  { intros a r. rewrite filter_In, <- list_elem_of_In.
    rewrite (field_position _ _ _ _ (wf_name _ _ _ _ Hwf)).
    split; intros [Hr Hm]; (split; [exact Hr|]).
    - now apply andb_true_iff in Hm as [[? _]%andb_true_iff _].
    - destruct (Hin r Hr) as [-> ->]. now rewrite Hm. }
  split.
  - intros r. rewrite list_elem_of_In. apply Hiff.
  - intros Hath Hrefl. rewrite (get_or_absent _ _ _ _ Hath).
    destruct (wf_default _ _ _ _ Hwf) as (r0 & rs0 & Hrows & Hdef).
    intros Hnil.
    assert (Hr0 : In r0 (List.filter
                     (fun r => cell_eq (cell_at jn r) (DEFAULT_ATHLETE g)
                               && geb (cell_at jd r) (Timestamp aware tmin)
                               && leb (cell_at jd r) (Timestamp aware tmax))
                     (rows (df g)))).
    { apply Hiff. split; [rewrite Hrows; left|].
      rewrite (field_position _ _ _ _ (wf_name _ _ _ _ Hwf)), <- Hdef.
      exact Hrefl. }
    rewrite Hnil in Hr0. destruct Hr0.
Qed.

(** X14: a request that no row matches is answered with the page, not with
    an error.  After a start-up, on a form without date fields whose
    subject (given, or the default) equals the subject of no row, [index]
    renders the template with the notice as plot, the distinct subjects
    and the column labels.  This is the case of the default request when
    the first row of the table has no subject. *)
Theorem unmatched_request_renders_notice {number : Type} {W : @World number}
        (files : list string) (g : @Globals number) (form : form_data) :
  startup files = Ok g ->
  form_get form "start_date" = None ->
  form_get form "end_date" = None ->
  (forall r, r ∈ rows (df g) ->
             cell_eq (field (df g) "name" r)
                     (get_or form "athlete" Str (DEFAULT_ATHLETE g)) = false) ->
  index g form
  = render_template "index.html"
      {| plot_html :=
           "<h3>No data available for the selected athlete and date range.</h3>";
         athletes := unique (map (field (df g) "name") (rows (df g)));
         variables := columns (df g) |}.
Proof.
  intros Hs Hsd Hed Hnone.
  destruct (startup_well_formed _ _ Hs) as (jn & jd & aware & Hwf).
  destruct (default_bounds _ _ _ _ Hwf) as (tmin & tmax & Hmin & Hmax & Hin).
  unfold index. rewrite (read_params_ok _ _ _ _ form Hwf). simpl.
  rewrite (get_or_absent _ _ _ _ Hsd), (get_or_absent _ _ _ _ Hed), Hmin, Hmax.
  unfold create_plot.
  rewrite (filter_rows_rows g jn jd aware _
             (DateVal (Timestamp aware tmin)) (DateVal (Timestamp aware tmax))
             (Timestamp aware tmin) (Timestamp aware tmax) Hwf eq_refl eq_refl
             (fits_refl _ _) (fits_refl _ _)).
  simpl. rewrite filter_none.
  2:{ intros r Hr. specialize (Hnone r Hr).
      rewrite (field_position _ _ _ _ (wf_name _ _ _ _ Hwf)) in Hnone.
      now rewrite Hnone. }
  unfold empty, nrows. simpl.
  rewrite (positions_series _ _ _ (wf_name _ _ _ _ Hwf)). simpl.
  unfold column_at. do 3 f_equal. apply map_ext. intros r.
  now rewrite (field_position _ _ _ _ (wf_name _ _ _ _ Hwf)).
Qed.

(** X15: an unknown metric makes the request fail.  On the application of
    the factory, a GET or POST on the root path whose parameters select a
    view that is not empty is answered with a server error carrying the
    KeyError of the first metric when that is no column of the table, and
    of the second when only that one is none. *)
Theorem unknown_metric_is_server_error {number : Type} {W : @World number}
        (g : @Globals number) (req : Request) (p : Params)
        (view : @DataFrame number) :
  path req = "/" ->
  method req = GET \/ method req = POST ->
  read_params g (form req) = Ok p ->
  filter_rows g (p_athlete p) (p_start_date p) (p_end_date p) = Ok view ->
  empty view = false ->
  (p_var1 p ∉ columns (df g) ->
   dispatch (create_app g) req = InternalServerError (KeyError (p_var1 p)))
  /\ (p_var1 p ∈ columns (df g) -> p_var2 p ∉ columns (df g) ->
      dispatch (create_app g) req = InternalServerError (KeyError (p_var2 p))).
Proof.
  intros Hpath Hm Hp Hv Hne.
  assert (Hc : columns view = columns (df g)).
  { destruct (filter_rows_view _ _ _ _ _ Hv) as [mask ->]. reflexivity. }
  assert (Hd : forall e,
             create_plot g (p_athlete p) (p_var1 p) (p_var2 p)
                         (p_start_date p) (p_end_date p) = Raise e ->
             dispatch (create_app g) req = InternalServerError e).
  { intros e He. rewrite (dispatch_root _ _ Hpath). unfold index.
    rewrite Hp. simpl. rewrite He. simpl. now destruct Hm as [-> | ->]. }
  split.
  - intros H1. apply Hd. eapply create_plot_first_missing; eauto. now rewrite Hc.
  - intros H1 H2. apply Hd. eapply create_plot_second_missing; eauto;
      now rewrite Hc.
Qed.

(** X16: a bound that cannot be parsed makes [create_plot] raise what the
    parser raised: for the start bound at once, for the end bound when the
    start bound is in the representation of the date column. *)
Theorem unparseable_bound_raises {number : Type} {W : @World number}
        (files : list string) (g : @Globals number) (athlete : @cell number)
        (var1 var2 : string) (s : string) (e : exn) :
  startup files = Ok g ->
  parse_datetime s = Raise e ->
  (forall end_date,
      create_plot g athlete var1 var2 (DateStr s) end_date = Raise e)
  /\ (forall start_date lo,
         to_datetime start_date = Ok lo ->
         same_representation (df g) lo ->
         create_plot g athlete var1 var2 start_date (DateStr s) = Raise e).
Proof.
  intros Hs He.
  destruct (startup_well_formed _ _ Hs) as (jn & jd & aware & Hwf).
  pose proof (wf_name _ _ _ _ Hwf) as Hjn. pose proof (wf_date _ _ _ _ Hwf) as Hjd.
  split.
  - intros end_date. unfold create_plot, filter_rows.
    rewrite (positions_series _ _ _ Hjn), (positions_series _ _ _ Hjd). simpl.
    now rewrite He.
  - intros start_date lo Hlo Rlo.
    pose proof (same_representation_fits _ _ _ _ _ Hwf Rlo) as Flo.
    unfold create_plot, filter_rows.
    rewrite (positions_series _ _ _ Hjn), (positions_series _ _ _ Hjd). simpl.
    rewrite Hlo. simpl. unfold series_ge, column_at.
    rewrite (mapM_total (fun c => cell_ge c lo) (fun c => geb c lo)).
    2:{ apply Forall_map. eapply Forall_impl; [exact (wf_dated _ _ _ _ Hwf)|].
        intros r [t ->]. now apply cell_ge_fits. }
    simpl. now rewrite He.
Qed.

(** X17: a start bound of the other awareness than the date column (a
    time-zone-aware bound on naive dates, or the reverse) makes
    [create_plot] raise a TypeError. *)
Theorem awareness_mismatch_raises {number : Type} {W : @World number}
        (files : list string) (g : @Globals number) (athlete : @cell number)
        (var1 var2 : string) (start_date end_date : date_arg)
        (a : bool) (t t0 : Z) :
  startup files = Ok g ->
  to_datetime start_date = Ok (Timestamp a t) ->
  same_representation (df g) (Timestamp (negb a) t0) ->
  create_plot g athlete var1 var2 start_date end_date = Raise TypeError.
Proof.
  intros Hs Hlo Rep.
  destruct (startup_well_formed _ _ Hs) as (jn & jd & aware & Hwf).
  pose proof (wf_name _ _ _ _ Hwf) as Hjn. pose proof (wf_date _ _ _ _ Hwf) as Hjd.
  destruct (same_representation_fits _ _ _ _ _ Hwf Rep) as [|[t' [= Ha _]]];
    [discriminate|].
  destruct (wf_default _ _ _ _ Hwf) as (r0 & rs0 & Hrows & _).
  pose proof (wf_dated _ _ _ _ Hwf) as Hdated. rewrite Hrows in Hdated.
  apply Forall_cons in Hdated as [[t1 Ht1] _].
  unfold create_plot, filter_rows.
  rewrite (positions_series _ _ _ Hjn), (positions_series _ _ _ Hjd). simpl.
  rewrite Hlo. simpl. unfold series_ge, column_at. rewrite Hrows. simpl.
  rewrite Ht1. simpl. rewrite <- Ha. now destruct a.
Qed.

(** X18: a bound that coerces to NaT (an empty date field) selects
    nothing: when both bounds coerce without error, each to NaT or to an
    instant of the awareness of the date column, and one of them is NaT,
    [create_plot] returns the notice. *)
Theorem missing_bound_renders_notice {number : Type} {W : @World number}
        (files : list string) (g : @Globals number) (athlete : @cell number)
        (var1 var2 : string) (start_date end_date : date_arg)
        (lo hi : datetime) :
  startup files = Ok g ->
  to_datetime start_date = Ok lo ->
  to_datetime end_date = Ok hi ->
  same_representation (df g) lo ->
  same_representation (df g) hi ->
  lo = NaT \/ hi = NaT ->
  create_plot g athlete var1 var2 start_date end_date
  = Ok "<h3>No data available for the selected athlete and date range.</h3>".
Proof.
  intros Hs Hlo Hhi Rlo Rhi Hnat.
  destruct (startup_well_formed _ _ Hs) as (jn & jd & aware & Hwf).
  pose proof (same_representation_fits _ _ _ _ _ Hwf Rlo) as Flo.
  pose proof (same_representation_fits _ _ _ _ _ Hwf Rhi) as Fhi.
  unfold create_plot.
  rewrite (filter_rows_rows _ _ _ _ athlete _ _ _ _ Hwf Hlo Hhi Flo Fhi). simpl.
  rewrite filter_none; [reflexivity|].
  intros r Hr. pose proof (wf_dated _ _ _ _ Hwf) as Hdated.
  rewrite Forall_forall in Hdated. destruct (Hdated r Hr) as [t ->].
  destruct Hnat as [-> | ->]; unfold geb, leb; simpl.
  - now rewrite andb_false_r.
  - apply andb_false_r.
Qed.

(** X19: the root route of the application of the factory.  The
    application has one rule, on the root path, for GET and POST, to which
    Flask adds HEAD and OPTIONS.  On the root path GET and POST are
    answered by [index] (its page, or a server error when it raises), HEAD
    likewise without a body, OPTIONS with the headers alone, and PUT and
    DELETE are not allowed. *)
Theorem factory_root_route {number : Type} {W : @World number}
        (g : @Globals number) (req : Request) :
  path req = "/" ->
  map rule (create_app g) = ["/"]
  /\ map methods (create_app g) = [[GET; POST; HEAD; OPTIONS]]
  /\ dispatch (create_app g) req
     = match method req with
       | GET | POST =>
           match index g (form req) with
           | Ok body => Page body
           | Raise e => InternalServerError e
           end
       | HEAD =>
           match index g (form req) with
           | Ok _ => Headers
           | Raise e => InternalServerError e
           end
       | OPTIONS => Headers
       | PUT | DELETE => MethodNotAllowed
       end.
Proof.
  intros Hp. split; [reflexivity|]. split; [reflexivity|].
  unfold dispatch, create_app, route. simpl. rewrite Hp. simpl.
  destruct (method req); simpl; try reflexivity; now destruct (index g (form req)).
Qed.


(** X21: the chart has one point per row of the view.  For a view that is
    not empty, with distinct labels among which are the two metrics,
    [create_plot] returns the markup of a figure of two traces, named by
    the metrics, the second on axis "y2"; both have the dates of the rows
    of the view as x, and the values of their metric in those rows as
    y. *)
Theorem chart_has_one_point_per_row {number : Type} {W : @World number}
        (g : @Globals number) (athlete : @cell number) (var1 var2 : string)
        (start_date end_date : date_arg) (view : @DataFrame number) :
  filter_rows g athlete start_date end_date = Ok view ->
  empty view = false ->
  NoDup (columns view) ->
  var1 ∈ columns view ->
  var2 ∈ columns view ->
  exists fig,
    create_plot g athlete var1 var2 start_date end_date = Ok (to_html fig)
    /\ map name (data fig) = [var1; var2]
    /\ map yaxis (data fig) = [None; Some "y2"]
    /\ map x (data fig)
       = [Series (map (field view "date") (rows view));
          Series (map (field view "date") (rows view))]
    /\ map y (data fig)
       = [Series (map (field view var1) (rows view));
          Series (map (field view var2) (rows view))].
Proof.
  intros Hv Hne Hnd H1 H2. unfold create_plot. rewrite Hv. simpl. rewrite Hne.
  rewrite (getitem_unique _ _ Hnd (filter_rows_has_date _ _ _ _ _ Hv)). simpl.
  rewrite (getitem_unique _ _ Hnd H1). simpl.
  rewrite (getitem_unique _ _ Hnd H2). simpl.
  eexists. split; [reflexivity|]. simpl. repeat split.
Qed.

(** * The further properties at work on the sample worlds *)

Lemma merge_keeps_text_witness :
  exists m,
    merge [Sample.jumps_csv; Sample.no_name_csv] = Ok m
    /\ map label (rows m)
       = seq 0 (sum_list (map nrows [Sample.jumps_csv; Sample.no_name_csv]))
    /\ (forall l, l ∈ columns m <->
                  exists f, f ∈ [Sample.jumps_csv; Sample.no_name_csv]
                            /\ l ∈ columns f)
    /\ forall key,
        map (fun r => text_of (field m key r)) (rows m)
        = flat_map (fun f => map (fun r => text_of (field f key r)) (rows f))
                   [Sample.jumps_csv; Sample.no_name_csv].
Proof.
  eexists. split; [vm_compute; reflexivity|].
  apply (merge_keeps_text [Sample.jumps_csv; Sample.no_name_csv]).
  vm_compute. reflexivity.
Defined.

Lemma later_entry_overwrites_witness :
  extracted_path (filename Sample.old_jumps) = "/srv/extracted_files/jumps.csv"
  /\ extracted_path (filename Sample.new_jumps) = "/srv/extracted_files/jumps.csv"
  /\ extract_all
       ([Ok [Sample.old_jumps]]
        ++ Ok ([Sample.notes; Sample.readme] ++ Sample.new_jumps :: [Sample.sprints])
        :: [Raise (LibraryError "BadZipFile")])
       ∅
     !! "/srv/extracted_files/jumps.csv"
     = Some [Byte.x6e; Byte.x65; Byte.x77].
Proof.
  split; [vm_compute; reflexivity|]. split; [vm_compute; reflexivity|].
  refine (proj1 (proj2 (proj2 (proj2
           (later_entry_overwrites ∅ [Ok [Sample.old_jumps]]
              [Raise (LibraryError "BadZipFile")]
              [Sample.notes; Sample.readme] [Sample.sprints]
              Sample.old_jumps Sample.new_jumps [Byte.x6e; Byte.x65; Byte.x77]
              _ _ _ _ _ _ _ _))))).
  - vm_compute. reflexivity.
  - vm_compute. reflexivity.
  - intros i Hi Hcsv. each_row Hi; [eexists; vm_compute; reflexivity|].
    vm_compute in Hcsv. discriminate.
  - intros i Hi _. each_row Hi. vm_compute. discriminate.
  - intros filelist i Hin.
    apply elem_of_cons in Hin as [Hin|Hin]; [discriminate Hin | inversion Hin].
  - right. exists [Sample.old_jumps]. split; left.
  - vm_compute. reflexivity.
  - vm_compute. reflexivity.
Defined.

Lemma startup_exits_without_tables_witness :
  main ["broken.csv"; "header_only.csv"] = Exited (SystemExit 1).
Proof.
  apply (startup_exits_without_tables ["broken.csv"; "header_only.csv"]).
  intros file H. each_row H; vm_compute; reflexivity.
Defined.

Lemma startup_needs_one_date_witness :
  main ["no_name.csv"; "jumps.csv"] = Exited ValueError.
Proof.
  assert (Hm : exists m,
             merge (load_loop ["no_name.csv"; "jumps.csv"] []) = Ok m
             /\ normalize_columns (columns m) !! 0 = Some "date"
             /\ normalize_columns (columns m) !! 2 = Some "date").
  { eexists. split; [vm_compute; reflexivity|]. split; vm_compute; reflexivity. }
  destruct Hm as (m & Hm & H0 & H2).
  exact (proj2 (startup_needs_one_date ["no_name.csv"; "jumps.csv"] m Hm)
               0 2 ltac:(discriminate) H0 H2).
Defined.

Lemma unified_table_invariant_witness :
  (exists j, positions "date" (columns (df Sample.globals)) = [j])
  /\ (exists aware, forall r, r ∈ rows (df Sample.globals) ->
        exists t, field (df Sample.globals) "date" r = Date (Timestamp aware t))
  /\ NoDup (map label (rows (df Sample.globals)))
  /\ exists m, merge (load_loop Sample.csv_files []) = Ok m
               /\ columns (df Sample.globals) = normalize_columns (columns m).
Proof.
  apply (unified_table_invariant Sample.csv_files (df Sample.globals)).
  vm_compute. reflexivity.
Defined.

Lemma extract_all_touches_only_csv_witness :
  exists filelist i,
    Ok filelist ∈ [Ok [Sample.readme; Sample.old_jumps]]
    /\ i ∈ filelist
    /\ Text.endswith (filename i) ".csv" = true
    /\ "/srv/extracted_files/jumps.csv"
       = path_join EXTRACT_FOLDER (basename (filename i)).
Proof.
  apply (extract_all_touches_only_csv [Ok [Sample.readme; Sample.old_jumps]] ∅
           "/srv/extracted_files/jumps.csv").
  vm_compute. discriminate.
Defined.

Lemma failing_member_ends_archive_witness :
  extract_names [Sample.notes; Sample.sprints; Sample.new_jumps]
                (["2024/notes.csv"] ++ "sprints.csv" :: ["2024/jumps.csv"]) ∅
  = (<[extracted_path "sprints.csv" := []]>
       (<["/srv/extracted_files/notes.csv" := [Byte.x6e]]> ∅),
     Some (LibraryError "BadZipFile")).
Proof.
  apply (failing_member_ends_archive
           [Sample.notes; Sample.sprints; Sample.new_jumps]
           ["2024/notes.csv"] ["2024/jumps.csv"] "sprints.csv" ∅
           (<["/srv/extracted_files/notes.csv" := [Byte.x6e]]> ∅)
           (LibraryError "BadZipFile")).
  - vm_compute. reflexivity.
  - vm_compute. reflexivity.
  - vm_compute. reflexivity.
Defined.


Lemma default_dates_keep_all_rows_witness :
  exists p view,
    read_params Sample.globals [("athlete", "B")] = Ok p
    /\ filter_rows Sample.globals (p_athlete p) (p_start_date p) (p_end_date p)
       = Ok view
    /\ (forall r, r ∈ rows view <->
                  r ∈ rows (df Sample.globals)
                  /\ cell_eq (field (df Sample.globals) "name" r) (p_athlete p)
                     = true)
    /\ (form_get [("athlete", "B")] "athlete" = None ->
        cell_eq (DEFAULT_ATHLETE Sample.globals) (DEFAULT_ATHLETE Sample.globals)
        = true ->
        rows view <> []).
Proof.
  apply (default_dates_keep_all_rows Sample.csv_files Sample.globals
           [("athlete", "B")]).
  - vm_compute. reflexivity.
  - vm_compute. reflexivity.
  - vm_compute. reflexivity.
Defined.

Lemma unmatched_request_renders_notice_witness :
  @index Z Anonymous.world Anonymous.globals []
  = @render_template Z Anonymous.world "index.html"
      {| plot_html :=
           "<h3>No data available for the selected athlete and date range.</h3>";
         athletes := @unique Z Anonymous.world
                       (map (field (df Anonymous.globals) "name")
                            (rows (df Anonymous.globals)));
         variables := columns (df Anonymous.globals) |}.
Proof.
  apply (@unmatched_request_renders_notice Z Anonymous.world ["any.csv"]
           Anonymous.globals []).
  - vm_compute. reflexivity.
  - vm_compute. reflexivity.
  - vm_compute. reflexivity.
  - intros r Hr. each_row Hr; vm_compute; reflexivity.
Defined.

Lemma unknown_metric_is_server_error_witness :
  dispatch (create_app Sample.globals)
           {| method := POST; path := "/";
              form := [("var1", "nonexistent_column")] |}
  = InternalServerError (KeyError "nonexistent_column").
Proof.
  apply (proj1 (unknown_metric_is_server_error Sample.globals
           {| method := POST; path := "/";
              form := [("var1", "nonexistent_column")] |}
           {| p_athlete := Str "A"; p_var1 := "nonexistent_column";
              p_var2 := "mrsi";
              p_start_date := DateVal (Timestamp false 1704067200000000000);
              p_end_date := DateVal (Timestamp false 1706745600000000000) |}
           {| columns := ["date"; "name"; "time_to_takeoff"; "mrsi"];
              rows :=
                [Sample.row 0 [Date (Timestamp false 1704067200000000000);
                               Str "A"; Num 21%Z; Num 352%Z];
                 Sample.row 3 [Date (Timestamp false 1705276800000000000);
                               Str "A"; Num 20%Z; Num 361%Z];
                 Sample.row 4 [Date (Timestamp false 1706745600000000000);
                               Str "A"; Num 19%Z; Num 370%Z]] |}
           eq_refl (or_intror eq_refl)
           ltac:(vm_compute; reflexivity) ltac:(vm_compute; reflexivity)
           ltac:(vm_compute; reflexivity))).
  intros H. no_such_label H.
Defined.

Lemma unparseable_bound_raises_witness :
  (forall end_date,
      create_plot Sample.globals (Str "A") "time_to_takeoff" "mrsi"
                  (DateStr "soon") end_date = Raise ValueError)
  /\ (forall start_date lo,
         to_datetime start_date = Ok lo ->
         same_representation (df Sample.globals) lo ->
         create_plot Sample.globals (Str "A") "time_to_takeoff" "mrsi"
                     start_date (DateStr "soon") = Raise ValueError).
Proof.
  apply (unparseable_bound_raises Sample.csv_files Sample.globals (Str "A")
           "time_to_takeoff" "mrsi" "soon" ValueError).
  - vm_compute. reflexivity.
  - vm_compute. reflexivity.
Defined.

Lemma awareness_mismatch_raises_witness :
  create_plot Sample.globals (Str "A") "time_to_takeoff" "mrsi"
              (DateStr "2024-01-01T00:00:00Z") (DateStr "2024-01-15")
  = Raise TypeError.
Proof.
  apply (awareness_mismatch_raises Sample.csv_files Sample.globals (Str "A")
           "time_to_takeoff" "mrsi" (DateStr "2024-01-01T00:00:00Z") (DateStr "2024-01-15")
           true 1704067200000000000 0).
  - vm_compute. reflexivity.
  - vm_compute. reflexivity.
  - intros r Hr. each_row Hr; eexists; vm_compute; reflexivity.
Defined.

Lemma missing_bound_renders_notice_witness :
  create_plot Sample.globals (Str "A") "time_to_takeoff" "mrsi"
              (DateStr "") (DateStr "2024-01-15")
  = Ok "<h3>No data available for the selected athlete and date range.</h3>".
Proof.
  apply (missing_bound_renders_notice Sample.csv_files Sample.globals (Str "A")
           "time_to_takeoff" "mrsi" (DateStr "") (DateStr "2024-01-15")
           NaT (Timestamp false 1705276800000000000)).
  - vm_compute. reflexivity.
  - vm_compute. reflexivity.
  - vm_compute. reflexivity.
  - exact I.
  - intros r Hr. each_row Hr; eexists; vm_compute; reflexivity.
  - now left.
Defined.

Lemma factory_root_route_witness :
  map rule (create_app Sample.globals) = ["/"]
  /\ map methods (create_app Sample.globals) = [[GET; POST; HEAD; OPTIONS]]
  /\ dispatch (create_app Sample.globals)
              {| method := PUT; path := "/"; form := [("athlete", "B")] |}
     = MethodNotAllowed.
Proof.
  apply (factory_root_route Sample.globals
           {| method := PUT; path := "/"; form := [("athlete", "B")] |}).
  reflexivity.
Defined.


Lemma chart_has_one_point_per_row_witness :
  exists fig,
    create_plot Sample.globals (Str "A") "time_to_takeoff" "mrsi"
                (DateStr "2024-01-01") (DateStr "2024-01-15")
    = Ok (to_html fig)
    /\ map name (data fig) = ["time_to_takeoff"; "mrsi"]
    /\ map yaxis (data fig) = [None; Some "y2"]
    /\ map x (data fig)
       = [Series (map (field Sample.view_A "date") (rows Sample.view_A));
          Series (map (field Sample.view_A "date") (rows Sample.view_A))]
    /\ map y (data fig)
       = [Series (map (field Sample.view_A "time_to_takeoff") (rows Sample.view_A));
          Series (map (field Sample.view_A "mrsi") (rows Sample.view_A))].
Proof.
  apply (chart_has_one_point_per_row Sample.globals (Str "A")
           "time_to_takeoff" "mrsi" (DateStr "2024-01-01") (DateStr "2024-01-15")
           Sample.view_A).
  - vm_compute. reflexivity.
  - vm_compute. reflexivity.
  - apply (bool_decide_unpack _). vm_compute. exact I.
  - apply (bool_decide_unpack _). vm_compute. exact I.
  - apply (bool_decide_unpack _). vm_compute. exact I.
Defined.
